(** * JusLearn backend: the REST handlers of [backend/index.js] over their store

    The server is a handful of Express route handlers, each issuing at most
    one SQLite statement and answering with a JSON body.  The model keeps
    that shape: the store is a record of tables (lists of rows in rowid
    order, with the AUTOINCREMENT counter next to them), a handler is a
    function from the world before the request to the world after it and
    the response sent, and what the handler cannot decide by itself (an
    I/O failure of the store, a failing [fs.unlink]) is an explicit input of
    the request.

    A field of a JSON body is a string or is absent ([null] and a missing
    key behave alike in every test the handlers make); the parameters of a
    route are strings.

    Two libraries are used by the handlers but are not part of the
    repository: [bcrypt] and the type coercion SQLite applies to text bound
    to an INTEGER column.  They are the fields of the class [Libraries];
    the theorems are stated for every instance, and the module [Reference]
    gives one to run the handlers on examples. *)

From Stdlib Require Import ZArith List String Ascii Bool Lia DecimalString.
From Stdlib Require Import DecimalPos DecimalZ.
Import ListNotations.
Local Open Scope string_scope.
Local Open Scope list_scope.
Local Open Scope Z_scope.

(** ** SQL values, tables and rowids *)

Module Sql.

(** What a column declared INTEGER can hold once a bound text parameter
    went through its affinity: an integer when the text is numeric, the
    text itself otherwise. *)
Inductive value : Type :=
| VInteger (z : Z)
| VText (s : string).

Definition value_eqb (a b : value) : bool :=
  match a, b with
  | VInteger x, VInteger y => x =? y
  | VText x, VText y => String.eqb x y
  | _, _ => false
  end.

(** A table with an [INTEGER PRIMARY KEY AUTOINCREMENT] column: its rows
    in rowid order and its entry in [sqlite_sequence]. *)
Record table (row : Type) : Type := Table {
  rows : list row;
  seq : Z
}.
Arguments Table {row} _ _.
Arguments rows {row} _.
Arguments seq {row} _.

Definition empty_table {row : Type} : table row := Table [] 0.

Definition max_rowid {row : Type} (rowid : row -> Z) (l : list row) : Z :=
  fold_right (fun r m => Z.max (rowid r) m) 0 l.

(** AUTOINCREMENT: one more than the largest rowid the table ever had. *)
Definition next_rowid {row : Type} (rowid : row -> Z) (t : table row) : Z :=
  Z.max (seq t) (max_rowid rowid (rows t)) + 1.

(** The outcome of a statement as the callback sees it: [err] or the
    result. *)
Inductive result (A : Type) : Type :=
| Ok (a : A)
| Err (message : string).
Arguments Ok {A} _.
Arguments Err {A} _.

(** [IFNULL(x, d)]. *)
Definition ifnull (x : option Z) (d : Z) : Z :=
  match x with
  | Some v => v
  | None => d
  end.

End Sql.
Import Sql.

(** ** The three tables of [index.js] *)

Module Users.
Record row : Type := Row {
  id : Z;
  username : string;
  email : string;
  password : string
}.
End Users.

Module Topics.
Record row : Type := Row {
  id : Z;
  module_name : string;
  topic_name : string
}.
End Topics.

Module Assignments.
Record row : Type := Row {
  id : Z;
  user_id : value;
  topic_id : value;
  file_path : string;
  marks : Z;
  completed : Z
}.
End Assignments.

(** The opened store the handlers talk to. *)
Record store : Type := Store {
  users : table Users.row;
  topics : list Topics.row;
  assignments : table Assignments.row
}.

(** ** Database initialisation and seeding *)

Module Schema.

Inductive table_name : Type := users_t | topics_t | assignments_t.

Definition table_name_eqb (a b : table_name) : bool :=
  match a, b with
  | users_t, users_t | topics_t, topics_t | assignments_t, assignments_t => true
  | _, _ => false
  end.

(** The database file [./juslearn.db] as a start of the process finds it:
    each table is there or not. *)
Record database : Type := Database {
  users_table : option (table Users.row);
  topics_table : option (list Topics.row);
  assignments_table : option (table Assignments.row)
}.

(** [FOREIGN KEY(...) REFERENCES ...] of the CREATE TABLE statements. *)
Definition references (child : table_name) : list table_name :=
  match child with
  | assignments_t => [users_t; topics_t]
  | users_t | topics_t => []
  end.

Definition exists_table (d : database) (t : table_name) : bool :=
  match t with
  | users_t => match users_table d with Some _ => true | None => false end
  | topics_t => match topics_table d with Some _ => true | None => false end
  | assignments_t =>
      match assignments_table d with Some _ => true | None => false end
  end.

Inductive statement : Type :=
| DropTableIfExists (t : table_name)
| CreateTableIfNotExists (t : table_name)
| DeleteFromTopics
| InsertIntoTopics (values : Z * string * string).

(** Insertion of a row with an explicit [INTEGER PRIMARY KEY]: refused
    when the id is taken, placed in rowid order otherwise. *)
Fixpoint insert_topic (r : Topics.row) (l : list Topics.row)
  : list Topics.row :=
  match l with
  | [] => [r]
  | x :: l' =>
      if Topics.id r =? Topics.id x then l
      else if Topics.id r <? Topics.id x then r :: l
      else x :: insert_topic r l'
  end.

(** The statements are run without a callback: an error (none of these
    can raise one but the insert) leaves the database as it was. *)
Definition run_statement (d : database) (s : statement) : database :=
  match s with
  | DropTableIfExists users_t =>
      Database None (topics_table d) (assignments_table d)
  | DropTableIfExists topics_t =>
      Database (users_table d) None (assignments_table d)
  | DropTableIfExists assignments_t =>
      Database (users_table d) (topics_table d) None
  | CreateTableIfNotExists users_t =>
      match users_table d with
      | Some _ => d
      | None => Database (Some empty_table) (topics_table d) (assignments_table d)
      end
  | CreateTableIfNotExists topics_t =>
      match topics_table d with
      | Some _ => d
      | None => Database (users_table d) (Some []) (assignments_table d)
      end
  | CreateTableIfNotExists assignments_t =>
      match assignments_table d with
      | Some _ => d
      | None => Database (users_table d) (topics_table d) (Some empty_table)
      end
  | DeleteFromTopics =>
      match topics_table d with
      | Some _ => Database (users_table d) (Some []) (assignments_table d)
      | None => d
      end
  | InsertIntoTopics (i, m, n) =>
      match topics_table d with
      | Some l =>
          Database (users_table d)
                   (Some (insert_topic (Topics.Row i m n) l))
                   (assignments_table d)
      | None => d
      end
  end.

Definition topicsToInsert : list (Z * string * string) :=
  [ (1, "Operating Systems", "Process Scheduling");
    (2, "Operating Systems", "Inter-process Communication");
    (3, "Operating Systems", "Paging & Segmentation");
    (4, "Operating Systems", "Virtual Memory");
    (5, "Operating Systems", "File Allocation");
    (6, "Operating Systems", "Directory Structures");
    (7, "DBMS", "ER Diagrams");
    (8, "DBMS", "Normalization");
    (9, "DBMS", "Select Queries");
    (10, "DBMS", "Joins & Subqueries");
    (11, "Computer Networks", "OSI Model");
    (12, "Computer Networks", "TCP/IP Model");
    (13, "Computer Networks", "IP Addressing");
    (14, "Computer Networks", "Routing") ].

(** The body of [db.serialize] in the order the statements reach the
    engine. *)
Definition initialization : list statement :=
  [ DropTableIfExists assignments_t;
    DropTableIfExists topics_t;
    DropTableIfExists users_t;
    CreateTableIfNotExists users_t;
    CreateTableIfNotExists topics_t;
    CreateTableIfNotExists assignments_t;
    DeleteFromTopics ]
  ++ map InsertIntoTopics topicsToInsert.

Definition run_statements (d : database) (l : list statement) : database :=
  fold_left run_statement l d.

Definition startup (d : database) : database :=
  run_statements d initialization.

(** A statement respects the foreign keys when it does not drop a table
    that a table still present refers to. *)
Definition respects_references (d : database) (s : statement) : bool :=
  match s with
  | DropTableIfExists t =>
      forallb (fun child =>
                 negb (exists_table d child
                       && existsb (table_name_eqb t) (references child)))
              [users_t; topics_t; assignments_t]
  | _ => true
  end.

Fixpoint all_respect_references (d : database) (l : list statement) : bool :=
  match l with
  | [] => true
  | s :: l' =>
      respects_references d s && all_respect_references (run_statement d s) l'
  end.

(** Opening the store once the tables are there. *)
Definition open (d : database) : option store :=
  match users_table d, topics_table d, assignments_table d with
  | Some u, Some t, Some a => Some (Store u t a)
  | _, _, _ => None
  end.

Definition on_disk (s : store) : database :=
  Database (Some (users s)) (Some (topics s)) (Some (assignments s)).

End Schema.

(** ** Requests, responses and what surrounds a request *)

Module Progress.
(** A row of the progress query. *)
Record row : Type := Row {
  topicId : Z;
  module_name : string;
  topic_name : string;
  completed : Z;
  marks : Z
}.
End Progress.

(** The JSON bodies the handlers send. *)
Inductive body : Type :=
| Message (message : string)
| Registered (message : string) (userId : Z)
| LoggedIn (message : string) (userId : Z) (username : string)
| Uploaded (message : string) (assignmentId : Z)
| TopicRows (rows : list Topics.row)
| ProgressRows (rows : list Progress.row).

Record response : Type := Response {
  status : Z;
  json : body
}.

(** [res.json(b)] answers with status 200, [res.status(n).json(b)] with [n]. *)
Definition res_json (b : body) : option response := Some (Response 200 b).
Definition res_status_json (n : Z) (b : body) : option response :=
  Some (Response n b).

(** The file part named [assignment] of a multipart request, with the
    value of [Date.now()] when multer names it. *)
Record file : Type := File {
  originalname : string;
  now : Z
}.

(** What the handler does not control while it serves one request: the
    error, if any, the store answers its statement with, and whether
    [fs.unlink] fails. *)
Record conditions : Type := Conditions {
  store_error : option string;
  unlink_error : bool
}.

Definition fair : conditions := Conditions None false.

(** The store and the [./uploads] directory. *)
Record world : Type := World {
  db : store;
  uploads : list string
}.

(** [bcrypt] and SQLite's coercion of bound text, as the handlers use them.
    A promise that rejects is [None]. *)
Class Libraries : Type := {
  bcrypt_hash : string -> option string;
  bcrypt_compare : option string -> string -> option bool;
  numeric_affinity : string -> value
}.

(** ** The statements the handlers issue *)

Definition string_of_Z (z : Z) : string := NilZero.string_of_int (Z.to_int z).

(** [INSERT INTO users(username, email, password) VALUES(?,?,?)]; the
    column [email] is UNIQUE. *)
Definition insert_user (c : conditions) (username email hashedPassword : string)
    (s : store) : result (store * Z) :=
  match store_error c with
  | Some m => Err m
  | None =>
      if existsb (fun u => String.eqb (Users.email u) email) (rows (users s))
      then Err "SQLITE_CONSTRAINT: UNIQUE constraint failed: users.email"
      else
        let lastID := next_rowid Users.id (users s) in
        Ok (Store (Table (rows (users s)
                            ++ [Users.Row lastID username email hashedPassword])
                         lastID)
                  (topics s) (assignments s),
            lastID)
  end.

(** [SELECT * FROM users WHERE email = ?] through [db.get]: the first row,
    if any.  An absent parameter is bound as NULL, which equals nothing. *)
Definition select_user_by_email (c : conditions) (email : option string)
    (s : store) : result (option Users.row) :=
  match store_error c with
  | Some m => Err m
  | None =>
      Ok (match email with
          | Some e =>
              find (fun u => String.eqb (Users.email u) e) (rows (users s))
          | None => None
          end)
  end.

(** [SELECT * FROM topics]. *)
Definition select_topics (c : conditions) (s : store)
    : result (list Topics.row) :=
  match store_error c with
  | Some m => Err m
  | None => Ok (topics s)
  end.

(** [REPLACE INTO assignments(user_id, topic_id, file_path, completed)
    VALUES(?,?,?,1)].  REPLACE deletes the rows the new one collides with
    on a uniqueness constraint before it inserts; the table has one such
    constraint, the primary key [id], and the statement leaves [id] to
    AUTOINCREMENT.  [marks] takes its default. *)
Definition replace_into_assignments (c : conditions) (user_id topic_id : value)
    (file_path : string) (s : store) : result (store * Z) :=
  match store_error c with
  | Some m => Err m
  | None =>
      let lastID := next_rowid Assignments.id (assignments s) in
      let kept :=
        filter (fun a => negb (Assignments.id a =? lastID))
               (rows (assignments s)) in
      Ok (Store (users s) (topics s)
                (Table (kept ++ [Assignments.Row lastID user_id topic_id
                                                 file_path 0 1])
                       lastID),
          lastID)
  end.

(** The ON clause of the progress query, [t.id = a.topic_id AND
    a.user_id = ?], the parameter already coerced. *)
Definition joins (user : value) (t : Topics.row) (a : Assignments.row) : bool :=
  value_eqb (VInteger (Topics.id t)) (Assignments.topic_id a)
  && value_eqb (Assignments.user_id a) user.

(** The select list over a topic and the assignment joined to it, NULL
    columns when there is none. *)
Definition progress_row (t : Topics.row) (a : option Assignments.row)
    : Progress.row :=
  Progress.Row (Topics.id t) (Topics.module_name t) (Topics.topic_name t)
               (ifnull (option_map Assignments.completed a) 0)
               (ifnull (option_map Assignments.marks a) 0).

(** [topics t LEFT JOIN assignments a ON ...]: a row per matching
    assignment, one row with NULLs for a topic without any. *)
Definition left_join (user : value) (s : store) : list Progress.row :=
  flat_map
    (fun t =>
       match filter (joins user t) (rows (assignments s)) with
       | [] => [progress_row t None]
       | matched => map (fun a => progress_row t (Some a)) matched
       end)
    (topics s).

Definition select_progress (c : conditions) (user : value) (s : store)
    : result (list Progress.row) :=
  match store_error c with
  | Some m => Err m
  | None => Ok (left_join user s)
  end.

(** ** The uploads directory *)

(** multer's [diskStorage]: destination [./uploads], file name
    [Date.now() + '-' + file.originalname]. *)
Definition filename (f : file) : string :=
  String.append (string_of_Z (now f)) (String.append "-" (originalname f)).

Definition path_of (f : file) : string := String.append "uploads/" (filename f).

Definition write_file (p : string) (files : list string) : list string :=
  if existsb (String.eqb p) files then files else p :: files.

(** [fs.unlink(p, () => {})]: the callback ignores the error. *)
Definition unlink (c : conditions) (p : string) (files : list string)
    : list string :=
  if unlink_error c then files
  else filter (fun q => negb (String.eqb q p)) files.

(** ** The route handlers *)

Definition invalidMessage : body := Message "Invalid credentials".

(** [!x] on a body field that is a string. *)
Definition empty (x : string) : bool := String.eqb x "".

Section Handlers.

Context `{Libraries}.

(** [POST /api/signup] *)
Definition signup (c : conditions) (username email password : option string)
    (w : world) : world * option response :=
  match username, email, password with
  | Some username, Some email, Some password =>
      if empty username || empty email || empty password
      then (w, res_status_json 400 (Message "Missing required fields"))
      else
        match bcrypt_hash password with
        | None =>
            (w, res_status_json 500
                  (Message "Internal server error during hashing."))
        | Some hashedPassword =>
            match insert_user c username email hashedPassword (db w) with
            | Err _ =>
                (w, res_status_json 409
                      (Message "Email or username already in use."))
            | Ok (db', lastID) =>
                (World db' (uploads w),
                 res_json (Registered "User registered successfully" lastID))
            end
        end
  | _, _, _ => (w, res_status_json 400 (Message "Missing required fields"))
  end.

(** [POST /api/login].  The callback of [db.get] awaits [bcrypt.compare]
    outside any [try]: when the promise rejects nothing is sent. *)
Definition login (c : conditions) (email password : option string)
    (w : world) : world * option response :=
  match select_user_by_email c email (db w) with
  | Err m => (w, res_status_json 500 (Message m))
  | Ok None => (w, res_status_json 401 invalidMessage)
  | Ok (Some user) =>
      match bcrypt_compare password (Users.password user) with
      | None => (w, None)
      | Some false => (w, res_status_json 401 invalidMessage)
      | Some true =>
          (w, res_json (LoggedIn "Login successful" (Users.id user)
                                 (Users.username user)))
      end
  end.

(** [GET /api/modules] *)
Definition modules (c : conditions) (w : world) : world * option response :=
  match select_topics c (db w) with
  | Err m => (w, res_status_json 500 (Message m))
  | Ok rows => (w, res_json (TopicRows rows))
  end.

(** [POST /api/upload/:userId/:topicId].  [upload.single('assignment')]
    runs before the handler and has saved the file, when there is one. *)
Definition upload (c : conditions) (userId topicId : string)
    (req_file : option file) (w : world) : world * option response :=
  match req_file with
  | None => (w, res_status_json 400 (Message "No file uploaded."))
  | Some f =>
      let filePath := path_of f in
      let saved := write_file filePath (uploads w) in
      match replace_into_assignments c (numeric_affinity userId)
              (numeric_affinity topicId) filePath (db w) with
      | Err m =>
          (World (db w) (unlink c filePath saved),
           res_status_json 500 (Message m))
      | Ok (db', lastID) =>
          (World db' saved,
           res_json (Uploaded "Assignment uploaded successfully" lastID))
      end
  end.

(** [GET /api/progress/:userId] *)
Definition progress (c : conditions) (userId : string) (w : world)
    : world * option response :=
  match select_progress c (numeric_affinity userId) (db w) with
  | Err m => (w, res_status_json 500 (Message m))
  | Ok rows => (w, res_json (ProgressRows rows))
  end.

(** The five routes. *)
Inductive request : Type :=
| PostSignup (username email password : option string)
| PostLogin (email password : option string)
| GetModules
| PostUpload (userId topicId : string) (req_file : option file)
| GetProgress (userId : string).

Definition handle (c : conditions) (r : request) (w : world)
    : world * option response :=
  match r with
  | PostSignup username email password => signup c username email password w
  | PostLogin email password => login c email password w
  | GetModules => modules c w
  | PostUpload userId topicId req_file => upload c userId topicId req_file w
  | GetProgress userId => progress c userId w
  end.

(** The server serving requests one after the other; the responses come
    out in the order of the requests. *)
Fixpoint serve (l : list (conditions * request)) (w : world)
    : world * list (option response) :=
  match l with
  | [] => (w, [])
  | (c, r) :: l' =>
      let (w1, a) := handle c r w in
      let (w2, answers) := serve l' w1 in
      (w2, a :: answers)
  end.

End Handlers.

(** ** Starting the process *)

(** The rows the seeding leaves in [topics]. *)
Definition seed_rows : list Topics.row :=
  map (fun '(i, m, n) => Topics.Row i m n) Schema.topicsToInsert.

Definition seeded : store := Store empty_table seed_rows empty_table.

(** A start of the process on the database file and the uploads directory
    it finds. *)
Definition start (d : Schema.database) (files : list string) : option world :=
  option_map (fun s => World s files) (Schema.open (Schema.startup d)).

(** Stopping the process and starting it again: the database file and the
    uploads directory are what the first run left. *)
Definition restart (w : world) : option world :=
  start (Schema.on_disk (db w)) (uploads w).

(** ** Vocabulary of the properties *)

(** The assignment rows of a (user, topic) pair. *)
Definition rows_of_pair (user topic : value) (s : store)
    : list Assignments.row :=
  filter (fun a => value_eqb (Assignments.user_id a) user
                   && value_eqb (Assignments.topic_id a) topic)
         (rows (assignments s)).

(** A body field that is absent or the empty string. *)
Definition absent_or_empty (x : option string) : bool :=
  match x with
  | Some s => empty s
  | None => true
  end.

Definition email_taken (e : string) (s : store) : bool :=
  existsb (fun u => String.eqb (Users.email u) e) (rows (users s)).

(** The marks a response shows, when it is a progress listing. *)
Definition shows_no_marks (a : option response) : Prop :=
  match a with
  | Some (Response _ (ProgressRows l)) =>
      Forall (fun r => Progress.marks r = 0) l
  | _ => True
  end.

Definition no_marks (s : store) : Prop :=
  Forall (fun a => Assignments.marks a = 0) (rows (assignments s)).

Definition emails_nonempty (s : store) : Prop :=
  Forall (fun u => empty (Users.email u) = false) (rows (users s)).

Definition emails_unique (s : store) : Prop :=
  NoDup (map Users.email (rows (users s))).

(** How often a topic id occurs in a progress listing. *)
Definition occurrences (topic : Z) (l : list Progress.row) : nat :=
  List.length (filter (fun r => Progress.topicId r =? topic) l).

(** ** A reference instance of the libraries

    Enough of [bcrypt] and of SQLite to run the handlers on examples: the
    hash is a tagged copy of the data (the real one is salted and
    one-way), [compare] rejects when the data is missing, as the library
    does with "data and hash arguments required", and a plain decimal
    numeral bound to an INTEGER column is stored as that integer. *)
Module Reference.

Definition hash (data : string) : option string :=
  Some (String.append "$2b$10$" data).

Definition compare (data : option string) (hashed : string) : option bool :=
  match data with
  | Some d => Some (String.eqb (String.append "$2b$10$" d) hashed)
  | None => None
  end.

Definition affinity (s : string) : value :=
  match NilZero.int_of_string s with
  | Some i => VInteger (Z.of_int i)
  | None => VText s
  end.

Definition libraries : Libraries := {|
  bcrypt_hash := hash;
  bcrypt_compare := compare;
  numeric_affinity := affinity
|}.

Definition fresh_world : world := World seeded [].

(** Two uploads of user 1 for topic 1. *)
Definition first_upload : request :=
  PostUpload "1" "1" (Some (File "a.pdf" 1000)).
Definition second_upload : request :=
  PostUpload "1" "1" (Some (File "b.pdf" 2000)).
Definition uploaded_twice : world :=
  fst (@serve libraries [(fair, first_upload); (fair, second_upload)]
              fresh_world).

(** The store refusing a statement for want of space. *)
Definition disk_full : conditions :=
  Conditions (Some "SQLITE_FULL: database or disk is full") false.

(** The scenario of the specification: alice signs up. *)
Definition alice_signs_up : request :=
  PostSignup (Some "alice") (Some "a@x.com") (Some "pw123").
Definition with_alice : world :=
  fst (@handle libraries fair alice_signs_up fresh_world).

End Reference.

(** ** Further vocabulary *)

(** The rowids 1, 2, ..., n. *)
Definition first_rowids (n : nat) : list Z := map Z.of_nat (List.seq 1 n).

(** A table whose rowids are 1, 2, ..., n in this order, n its number of
    rows, and whose AUTOINCREMENT counter stands at n. *)
Definition counted {row : Type} (rowid : row -> Z) (t : table row) : Prop :=
  map rowid (rows t) = first_rowids (List.length (rows t))
  /\ seq t = Z.of_nat (List.length (rows t)).

(** The statuses a route answers with. *)
Definition possible_statuses (r : request) : list Z :=
  match r with
  | PostSignup _ _ _ => [200; 400; 409; 500]
  | PostLogin _ _ => [200; 401; 500]
  | GetModules => [200; 500]
  | PostUpload _ _ _ => [200; 400; 500]
  | GetProgress _ => [200; 500]
  end.

(** A stored user as a signup writes it: the three fields non-empty and
    the password column the outcome of [bcrypt.hash]. *)
Definition written_by_signup `{Libraries} (u : Users.row) : Prop :=
  empty (Users.username u) = false
  /\ empty (Users.email u) = false
  /\ exists password,
       empty password = false
       /\ bcrypt_hash password = Some (Users.password u).

(** A string without the character [-], as the decimal numeral of a
    timestamp is. *)
Fixpoint no_dash (s : string) : bool :=
  match s with
  | EmptyString => true
  | String a s' => negb (Ascii.eqb a "-") && no_dash s'
  end.

(** ** The table definitions of [index.js] and of [database.js]

    Both files open [./juslearn.db] and create tables in it; what a table
    is created with matters as soon as both have run.  Here the database
    is its list of table definitions, column by column. *)
Module Ddl.

Record column : Type := Column {
  name : string;
  declaration : string
}.

Record foreign_key : Type := ForeignKey {
  child_column : string;
  parent : string;
  parent_column : string;
  on_delete_cascade : bool
}.

Record table_definition : Type := TableDefinition {
  columns : list column;
  foreign_keys : list foreign_key
}.

Definition schema : Type := list (string * table_definition).

(** SQLite compares the names of tables without regard to the case of
    the ASCII letters: [users], [Users] and [USERS] name one table. *)
Definition lower (a : ascii) : ascii :=
  let k := nat_of_ascii a in
  if Nat.leb 65 k && Nat.leb k 90 then ascii_of_nat (Nat.add k 32) else a.

Fixpoint fold_case (n : string) : string :=
  match n with
  | EmptyString => EmptyString
  | String a n' => String (lower a) (fold_case n')
  end.

Definition same_name (m n : string) : bool :=
  String.eqb (fold_case m) (fold_case n).

(** [n] is one of the names [l], in some spelling. *)
Definition named (n : string) (l : list string) : bool :=
  existsb (fun m => same_name m n) l.

Fixpoint find_table (n : string) (s : schema) : option table_definition :=
  match s with
  | [] => None
  | (m, d) :: s' => if same_name m n then Some d else find_table n s'
  end.

Definition drop_table (n : string) (s : schema) : schema :=
  filter (fun e => negb (same_name (fst e) n)) s.

Inductive statement : Type :=
| DropTableIfExists (n : string)
| CreateTableIfNotExists (n : string) (d : table_definition).

Definition run_statement (s : schema) (st : statement) : schema :=
  match st with
  | DropTableIfExists n => drop_table n s
  | CreateTableIfNotExists n d =>
      match find_table n s with
      | Some _ => s
      | None => s ++ [(n, d)]
      end
  end.

Definition run (s : schema) (l : list statement) : schema :=
  fold_left run_statement l s.

(** The tables of [index.js]. *)
Definition index_users : table_definition :=
  TableDefinition
    [ Column "id" "INTEGER PRIMARY KEY AUTOINCREMENT";
      Column "username" "TEXT";
      Column "email" "TEXT UNIQUE";
      Column "password" "TEXT" ]
    [].

Definition index_topics : table_definition :=
  TableDefinition
    [ Column "id" "INTEGER PRIMARY KEY";
      Column "module_name" "TEXT";
      Column "topic_name" "TEXT" ]
    [].

Definition index_assignments : table_definition :=
  TableDefinition
    [ Column "id" "INTEGER PRIMARY KEY AUTOINCREMENT";
      Column "user_id" "INTEGER";
      Column "topic_id" "INTEGER";
      Column "file_path" "TEXT";
      Column "marks" "INTEGER DEFAULT 0";
      Column "completed" "INTEGER DEFAULT 0" ]
    [ ForeignKey "user_id" "users" "id" true;
      ForeignKey "topic_id" "topics" "id" true ].

(** The drops and creates of [index.js], in order. *)
Definition index_js : list statement :=
  [ DropTableIfExists "assignments";
    DropTableIfExists "topics";
    DropTableIfExists "users";
    CreateTableIfNotExists "users" index_users;
    CreateTableIfNotExists "topics" index_topics;
    CreateTableIfNotExists "assignments" index_assignments ].

(** The tables of [database.js]. *)
Definition database_users : table_definition :=
  TableDefinition
    [ Column "id" "INTEGER PRIMARY KEY AUTOINCREMENT";
      Column "name" "TEXT";
      Column "email" "TEXT UNIQUE";
      Column "password" "TEXT" ]
    [].

Definition database_modules : table_definition :=
  TableDefinition
    [ Column "id" "INTEGER PRIMARY KEY AUTOINCREMENT";
      Column "name" "TEXT" ]
    [].

Definition database_topics : table_definition :=
  TableDefinition
    [ Column "id" "INTEGER PRIMARY KEY AUTOINCREMENT";
      Column "module_id" "INTEGER";
      Column "name" "TEXT" ]
    [ ForeignKey "module_id" "modules" "id" false ].

Definition database_assignments : table_definition :=
  TableDefinition
    [ Column "id" "INTEGER PRIMARY KEY AUTOINCREMENT";
      Column "user_id" "INTEGER";
      Column "topic_id" "INTEGER";
      Column "filename" "TEXT";
      Column "marks" "INTEGER DEFAULT 0" ]
    [ ForeignKey "user_id" "users" "id" false;
      ForeignKey "topic_id" "topics" "id" false ].

(** The body of [db.serialize] in [database.js]. *)
Definition database_js : list statement :=
  [ CreateTableIfNotExists "users" database_users;
    CreateTableIfNotExists "modules" database_modules;
    CreateTableIfNotExists "topics" database_topics;
    CreateTableIfNotExists "assignments" database_assignments ].

(** The columns the statements of the route handlers name, table by
    table: the INSERT and the SELECT on [users], the SELECT on [topics],
    the REPLACE on [assignments] and the progress query. *)
Definition handler_columns : list (string * list string) :=
  [ ("users", ["id"; "username"; "email"; "password"]);
    ("topics", ["id"; "module_name"; "topic_name"]);
    ("assignments",
     ["user_id"; "topic_id"; "file_path"; "completed"; "marks"]) ].

Definition has_columns (s : schema) (e : string * list string) : bool :=
  match find_table (fst e) s with
  | Some d =>
      forallb (fun c => existsb (same_name c) (map name (columns d))) (snd e)
  | None => false
  end.

(** The handlers' statements compile against the schema; column names,
    like table names, are compared without regard to case. *)
Definition serves_handlers (s : schema) : bool :=
  forallb (has_columns s) handler_columns.

End Ddl.

(** ** Sample data *)

Module Samples.

(** A server on which alice signed up and uploaded once for topic 3. *)
Definition alice_uploads : request :=
  PostUpload "1" "3" (Some (File "os.pdf" 5000)).

Definition busy : list (conditions * request) :=
  [ (fair, Reference.alice_signs_up); (fair, alice_uploads) ].

Definition after_busy : world :=
  fst (@serve Reference.libraries busy Reference.fresh_world).

(** The uploads directory after a first upload, and its file again. *)
Definition after_first_upload : world :=
  fst (@handle Reference.libraries fair Reference.first_upload
               Reference.fresh_world).

Definition paging : Topics.row :=
  Topics.Row 3 "Operating Systems" "Paging & Segmentation".

(** A database file on which [database.js] ran alone. *)
Definition legacy : Ddl.schema := Ddl.run [] Ddl.database_js.

End Samples.

(** * Properties *)

(** ** Rowids and REPLACE *)

Lemma max_rowid_bound {row : Type} (rowid : row -> Z) (l : list row) (r : row) :
  In r l -> rowid r <= max_rowid rowid l.
Proof.
  induction l as [| x l IH]; simpl; intros Hin.
  - contradiction.
  - destruct Hin as [-> | Hin].
    + apply Z.le_max_l.
    + specialize (IH Hin). lia.
Qed.

(** The rowid AUTOINCREMENT hands out is above every rowid in the table. *)
Lemma next_rowid_fresh {row : Type} (rowid : row -> Z) (t : table row) (r : row) :
  In r (rows t) -> rowid r < next_rowid rowid t.
Proof.
  intros Hin. unfold next_rowid.
  pose proof (max_rowid_bound rowid (rows t) r Hin). lia.
Qed.

Lemma filter_keeps_all {A : Type} (f : A -> bool) (l : list A) :
  (forall x, In x l -> f x = true) -> filter f l = l.
Proof.
  induction l as [| x l IH]; simpl; intros Hall.
  - reflexivity.
  - rewrite (Hall x (or_introl eq_refl)).
    f_equal. apply IH. intros y Hy. apply Hall. right. exact Hy.
Qed.

(** No row ever collides with the row REPLACE inserts: nothing is deleted. *)
Lemma replace_keeps_rows (t : table Assignments.row) :
  filter (fun a => negb (Assignments.id a =? next_rowid Assignments.id t))
         (rows t) = rows t.
Proof.
  apply filter_keeps_all. intros a Hin.
  pose proof (next_rowid_fresh Assignments.id t a Hin) as Hlt.
  apply negb_true_iff, Z.eqb_neq. lia.
Qed.

(** A successful REPLACE is an append. *)
Lemma replace_into_assignments_appends (c : conditions) (u t : value)
    (p : string) (s s' : store) (lastID : Z) :
  replace_into_assignments c u t p s = Ok (s', lastID) ->
  rows (assignments s')
  = rows (assignments s) ++ [Assignments.Row lastID u t p 0 1]
  /\ users s' = users s /\ topics s' = topics s
  /\ lastID = next_rowid Assignments.id (assignments s).
Proof.
  unfold replace_into_assignments.
  destruct (store_error c); [discriminate |].
  intros Heq. injection Heq as <- <-. simpl.
  rewrite replace_keeps_rows. repeat split; reflexivity.
Qed.

Lemma replace_into_assignments_fails (c : conditions) (u t : value)
    (p : string) (s : store) (m : string) :
  replace_into_assignments c u t p s = Err m <-> store_error c = Some m.
Proof.
  unfold replace_into_assignments.
  destruct (store_error c) as [m' |]; split; intros Heq;
    try discriminate; congruence.
Qed.

(** The insert into [users] fails on a store error or on a taken email,
    and on nothing else. *)
Lemma insert_user_fails (c : conditions) (u e h : string) (s : store) :
  (exists m, insert_user c u e h s = Err m)
  <-> store_error c <> None \/ email_taken e s = true.
Proof.
  unfold insert_user, email_taken.
  destruct (store_error c) as [m |].
  - split; [intros _; left; discriminate | intros _; eexists; reflexivity].
  - destruct (existsb _ _).
    + split; [intros _; right; reflexivity | intros _; eexists; reflexivity].
    + split.
      * intros [m Hm]. discriminate.
      * intros [Hc | Hc]; [contradiction Hc; reflexivity | discriminate].
Qed.

Lemma insert_user_succeeds (c : conditions) (u e h : string) (s : store) :
  store_error c = None -> email_taken e s = false ->
  insert_user c u e h s
  = Ok (Store (Table (rows (users s)
                        ++ [Users.Row (next_rowid Users.id (users s)) u e h])
                     (next_rowid Users.id (users s)))
              (topics s) (assignments s),
        next_rowid Users.id (users s)).
Proof.
  unfold insert_user, email_taken. intros -> ->. reflexivity.
Qed.

Lemma email_taken_spec (e : string) (s : store) :
  email_taken e s = true
  <-> exists u, In u (rows (users s)) /\ Users.email u = e.
Proof.
  unfold email_taken. rewrite existsb_exists.
  split; intros [u [Hin Hu]]; exists u; split; try exact Hin.
  - apply String.eqb_eq. exact Hu.
  - apply String.eqb_eq. exact Hu.
Qed.

(** ** Initialisation *)

Lemma startup_result (d : Schema.database) :
  Schema.startup d
  = Schema.Database (Some empty_table) (Some seed_rows) (Some empty_table).
Proof.
  destruct d as [u t a]. reflexivity.
Qed.

Lemma start_seeded (d : Schema.database) (files : list string) :
  start d files = Some (World seeded files).
Proof.
  unfold start. rewrite startup_result. reflexivity.
Qed.

(** C7.  Every start of the process drops the three tables, children
    before parents (assignments, topics, users), so that no drop removes a
    table a remaining table refers to; it creates them again, empties
    [topics] and inserts the fourteen seed rows.  Whatever the database
    file held, the store the process opens has no user and no assignment
    and exactly the seeded topics: a restart discards the users and the
    submissions registered before it. *)
Theorem startup_discards_and_reseeds (d : Schema.database) (files : list string) :
  Schema.initialization
  = map Schema.DropTableIfExists
        [Schema.assignments_t; Schema.topics_t; Schema.users_t]
    ++ map Schema.CreateTableIfNotExists
        [Schema.users_t; Schema.topics_t; Schema.assignments_t]
    ++ Schema.DeleteFromTopics
       :: map Schema.InsertIntoTopics Schema.topicsToInsert
  /\ Schema.all_respect_references d Schema.initialization = true
  /\ List.length Schema.topicsToInsert = 14%nat
  /\ exists w,
       start d files = Some w
       /\ rows (users (db w)) = []
       /\ rows (assignments (db w)) = []
       /\ topics (db w) = seed_rows
       /\ uploads w = files.
Proof.
  split; [reflexivity |].
  split; [destruct d as [[u |] [t |] [a |]]; reflexivity |].
  split; [reflexivity |].
  exists (World seeded files).
  rewrite start_seeded. repeat split; reflexivity.
Qed.

(** A restart of a running server in particular. *)
Corollary restart_discards (w : world) :
  restart w = Some (World seeded (uploads w)).
Proof.
  unfold restart. apply start_seeded.
Qed.

Section Properties.

Context `{Libraries}.

(** C6.  Right after the seeding of a start, whatever the database file
    held, [GET /api/modules] answers 200 with fourteen topic rows, and
    the module names occurring in them are exactly "Operating Systems",
    "DBMS" and "Computer Networks". *)
Theorem modules_after_seeding (d : Schema.database) (files : list string) :
  exists w l,
    start d files = Some w
    /\ modules fair w = (w, res_json (TopicRows l))
    /\ List.length l = 14%nat
    /\ forall m, In m (map Topics.module_name l)
                 <-> In m ["Operating Systems"; "DBMS"; "Computer Networks"].
Proof.
  exists (World seeded files), seed_rows.
  split; [apply start_seeded |].
  split; [reflexivity |].
  split; [reflexivity |].
  intros m. simpl. intuition.
Qed.

(** ** The uploads directory *)

Lemma in_write_file (p q : string) (files : list string) :
  In q (write_file p files) <-> q = p \/ In q files.
Proof.
  unfold write_file.
  destruct (existsb (String.eqb p) files) eqn:Hex.
  - split; [intros Hin; right; exact Hin |].
    intros [-> | Hin]; [| exact Hin].
    apply existsb_exists in Hex. destruct Hex as [x [Hx Heq]].
    apply String.eqb_eq in Heq. subst x. exact Hx.
  - simpl. split; intros [Heq | Hin]; auto.
Qed.

Lemma in_unlink (c : conditions) (p q : string) (files : list string) :
  unlink_error c = false ->
  (In q (unlink c p files) <-> q <> p /\ In q files).
Proof.
  unfold unlink. intros ->. rewrite filter_In.
  rewrite negb_true_iff, String.eqb_neq. tauto.
Qed.

(** C5.  An upload request without a file part is answered 400 "No file
    uploaded." and leaves the store and the directory as they were.  When
    the store refuses the write of an upload whose file was saved, the
    answer is 500 with the store's message, the store is unchanged, the
    other files are untouched, and the saved file is gone unless the
    unlink itself failed, a failure that changes nothing else. *)
Theorem upload_failures (c : conditions) (userId topicId : string) (w : world) :
  upload c userId topicId None w
  = (w, res_status_json 400 (Message "No file uploaded."))
  /\ forall (f : file) (m : string),
       store_error c = Some m ->
       exists w',
         upload c userId topicId (Some f) w
         = (w', res_status_json 500 (Message m))
         /\ db w' = db w
         /\ (forall q, q <> path_of f ->
                       (In q (uploads w') <-> In q (uploads w)))
         /\ (unlink_error c = false -> ~ In (path_of f) (uploads w'))
         /\ (unlink_error c = true ->
             uploads w' = write_file (path_of f) (uploads w)).
Proof.
  split; [reflexivity |].
  intros f m Hm.
  exists (World (db w) (unlink c (path_of f)
                               (write_file (path_of f) (uploads w)))).
  unfold upload.
  rewrite (proj2 (replace_into_assignments_fails c _ _ _ (db w) m) Hm).
  split; [reflexivity |].
  split; [reflexivity |].
  simpl. repeat split.
  - destruct (unlink_error c) eqn:Hu.
    + unfold unlink. rewrite Hu. rewrite in_write_file.
      intros [Heq | Hin]; [contradiction | exact Hin].
    + rewrite (in_unlink c _ _ _ Hu), in_write_file.
      intros [_ [Heq | Hin]]; [contradiction | exact Hin].
  - destruct (unlink_error c) eqn:Hu.
    + unfold unlink. rewrite Hu. rewrite in_write_file. auto.
    + rewrite (in_unlink c _ _ _ Hu), in_write_file. auto.
  - intros Hu. rewrite (in_unlink c _ _ _ Hu). tauto.
  - intros Hu. unfold unlink. rewrite Hu. reflexivity.
Qed.

(** ** Signup *)

(** C8.  A signup in which the username, the email or the password is
    absent or empty is answered 400 "Missing required fields" and the
    world is unchanged, so no user row is inserted.  When the three are
    non-empty strings, no stored user has the email, the hash is computed
    and the store raises no error, the answer is 200 with the id of the
    row appended to [users], an id no earlier row has. *)
Theorem signup_validation (c : conditions)
    (username email password : option string) (w : world) :
  (absent_or_empty username = true \/ absent_or_empty email = true
   \/ absent_or_empty password = true ->
   signup c username email password w
   = (w, res_status_json 400 (Message "Missing required fields")))
  /\ (forall u e p hashed,
        username = Some u -> email = Some e -> password = Some p ->
        empty u = false -> empty e = false -> empty p = false ->
        (forall x, In x (rows (users (db w))) -> Users.email x <> e) ->
        bcrypt_hash p = Some hashed ->
        store_error c = None ->
        exists w' userId,
          signup c username email password w
          = (w', res_json (Registered "User registered successfully" userId))
          /\ (forall x, In x (rows (users (db w))) -> Users.id x <> userId)
          /\ rows (users (db w'))
             = rows (users (db w)) ++ [Users.Row userId u e hashed]
          /\ assignments (db w') = assignments (db w)
          /\ topics (db w') = topics (db w)).
Proof.
  split.
  - unfold signup, absent_or_empty.
    destruct username as [u |], email as [e |], password as [p |];
      try reflexivity.
    intros [Hu | [He | Hp]].
    + rewrite Hu. reflexivity.
    + rewrite He, orb_true_r. reflexivity.
    + rewrite Hp, orb_true_r. reflexivity.
  - intros u e p hashed -> -> -> Hu He Hp Hfresh Hhash Hc.
    assert (Hfree : email_taken e (db w) = false).
    { destruct (email_taken e (db w)) eqn:Ht; [| reflexivity].
      apply email_taken_spec in Ht. destruct Ht as [x [Hin Hx]].
      exfalso. exact (Hfresh x Hin Hx). }
    unfold signup. rewrite Hu, He, Hp, Hhash. simpl.
    rewrite (insert_user_succeeds c u e hashed (db w) Hc Hfree).
    eexists. eexists. split; [reflexivity |].
    simpl. repeat split.
    intros x Hin Heq.
    pose proof (next_rowid_fresh Users.id (users (db w)) x Hin). lia.
Qed.

(** C4, as the code has it.  Once the fields passed the presence check:
    a rejected hash is answered 500 "Internal server error during
    hashing."; with the hash computed, the answer is 409 "Email or
    username already in use." exactly when the insert fails, that is
    when the email is already stored or the store raises any other
    error.  In both cases the world is unchanged. *)
Theorem signup_failures (c : conditions) (username email password : string)
    (w : world) :
  empty username = false -> empty email = false -> empty password = false ->
  (bcrypt_hash password = None ->
   signup c (Some username) (Some email) (Some password) w
   = (w, res_status_json 500
           (Message "Internal server error during hashing.")))
  /\ (forall hashed, bcrypt_hash password = Some hashed ->
      (signup c (Some username) (Some email) (Some password) w
       = (w, res_status_json 409
               (Message "Email or username already in use."))
       <-> store_error c <> None \/ email_taken email (db w) = true)).
Proof.
  intros Hu He Hp. unfold signup. rewrite Hu, He, Hp. simpl.
  split.
  - intros ->. reflexivity.
  - intros hashed ->.
    rewrite <- (insert_user_fails c username email hashed (db w)).
    destruct (insert_user c username email hashed (db w)) as [[s' i] | m].
    + split; [discriminate |]. intros [m Hm]. discriminate.
    + split; [intros _; exists m; reflexivity | reflexivity].
Qed.

(** ** Login *)

Lemma find_none_iff (e : string) (l : list Users.row) :
  find (fun u => String.eqb (Users.email u) e) l = None
  <-> forall u, In u l -> Users.email u <> e.
Proof.
  split.
  - intros Hnone u Hin Heq.
    pose proof (find_none _ _ Hnone u Hin) as Hf. simpl in Hf.
    apply String.eqb_neq in Hf. contradiction.
  - intros Hall.
    destruct (find _ l) as [u |] eqn:Hf; [| reflexivity].
    apply find_some in Hf. destruct Hf as [Hin Heq].
    apply String.eqb_eq in Heq. exfalso. exact (Hall u Hin Heq).
Qed.

(** The login of an email no stored user has. *)
Lemma login_unknown_email (c : conditions) (e : string)
    (password : option string) (w : world) :
  store_error c = None ->
  (forall u, In u (rows (users (db w))) -> Users.email u <> e) ->
  login c (Some e) password w = (w, res_status_json 401 invalidMessage).
Proof.
  intros Hc Hnone. unfold login, select_user_by_email. rewrite Hc.
  rewrite (proj2 (find_none_iff e _) Hnone). reflexivity.
Qed.

(** The login of a stored email with a password the comparison refuses. *)
Lemma login_mismatch (c : conditions) (e : string)
    (password : option string) (w : world) :
  store_error c = None ->
  (forall u, In u (rows (users (db w))) -> Users.email u = e ->
             bcrypt_compare password (Users.password u) = Some false) ->
  login c (Some e) password w = (w, res_status_json 401 invalidMessage).
Proof.
  intros Hc Hwrong. unfold login, select_user_by_email. rewrite Hc.
  destruct (find _ _) as [u |] eqn:Hf; [| reflexivity].
  apply find_some in Hf. destruct Hf as [Hin Heq].
  apply String.eqb_eq in Heq.
  rewrite (Hwrong u Hin Heq). reflexivity.
Qed.

(** ** Invariants of the running server *)

Lemma serve_invariant (P : world -> Prop) (Q : option response -> Prop) :
  (forall c r w, P w -> P (fst (handle c r w)) /\ Q (snd (handle c r w))) ->
  forall l w, P w -> P (fst (serve l w)) /\ Forall Q (snd (serve l w)).
Proof.
  intros Hstep l.
  induction l as [| [c r] l IH]; intros w Hw; simpl.
  - split; [exact Hw | constructor].
  - destruct (Hstep c r w Hw) as [HP HQ].
    destruct (handle c r w) as [w1 a]. simpl in HP, HQ.
    destruct (IH w1 HP) as [HP2 HQ2].
    destruct (serve l w1) as [w2 answers]. simpl in *.
    split; [exact HP2 | constructor; assumption].
Qed.

(** What a handler does to the store: nothing but the two inserts. *)
Lemma handle_store (c : conditions) (r : request) (w : world) :
  let s := db w in
  let s' := db (fst (handle c r w)) in
  topics s' = topics s
  /\ (rows (users s') = rows (users s)
      \/ exists i u e h, empty e = false /\ email_taken e s = false
           /\ rows (users s') = rows (users s) ++ [Users.Row i u e h])
  /\ (rows (assignments s') = rows (assignments s)
      \/ exists i u t p,
           rows (assignments s')
           = rows (assignments s) ++ [Assignments.Row i u t p 0 1]).
Proof.
  destruct r as [u e p | e p | | u t [f |] | u]; simpl.
  - unfold signup.
    destruct u as [u |], e as [e |], p as [p |]; simpl; auto.
    destruct (empty u), (empty e) eqn:He, (empty p); simpl; auto.
    destruct (bcrypt_hash p) as [h |]; simpl; auto.
    unfold insert_user.
    destruct (store_error c); simpl; auto.
    destruct (existsb _ _) eqn:Htaken; simpl; auto.
    split; [reflexivity |]. split; [| auto].
    right. exists (next_rowid Users.id (users (db w))), u, e, h. auto.
  - unfold login.
    destruct (select_user_by_email c e (db w)) as [[x |] | m]; simpl; auto.
    destruct (bcrypt_compare p (Users.password x)) as [[|] |]; simpl; auto.
  - unfold modules. destruct (select_topics c (db w)); simpl; auto.
  - unfold upload.
    destruct (replace_into_assignments c _ _ _ (db w)) as [[s' i] | m] eqn:Hr;
      simpl; auto.
    apply replace_into_assignments_appends in Hr.
    destruct Hr as [Hrows [Hu [Ht _]]].
    rewrite Hu, Ht. split; [reflexivity |]. split; [auto |].
    right. eauto.
  - auto.
  - unfold progress.
    destruct (select_progress c _ (db w)); simpl; auto.
Qed.

(** The UNIQUE constraint on [email] at work: no two stored users share
    an email, on every world the server reaches. *)
Lemma handle_emails_unique (c : conditions) (r : request) (w : world) :
  emails_unique (db w) -> emails_unique (db (fst (handle c r w))).
Proof.
  intros Hw.
  destruct (handle_store c r w)
    as [_ [[Heq | [i [u [e [h [_ [Hfree Heq]]]]]]] _]];
    unfold emails_unique; rewrite Heq; [exact Hw |].
  rewrite map_app. apply NoDup_app.
  - exact Hw.
  - simpl. constructor; [intros [] | constructor].
  - intros x Hx [<- | []].
    apply in_map_iff in Hx. destruct Hx as [y [Hy Hin]].
    assert (Ht : email_taken (Users.email y) (db w) = true)
      by (apply email_taken_spec; exists y; auto).
    simpl in Hy. rewrite Hy in Ht. congruence.
Qed.

Lemma served_emails_unique (l : list (conditions * request))
    (files : list string) :
  emails_unique (db (fst (serve l (World seeded files)))).
Proof.
  apply (serve_invariant (fun w => emails_unique (db w)) (fun _ => True)).
  - intros c r w Hw. split; [apply handle_emails_unique; exact Hw | exact I].
  - constructor.
Qed.

(** Among users with distinct emails, a user's email belongs to that user
    alone. *)
Lemma unique_email_owner (l : list Users.row) (u v : Users.row) :
  NoDup (map Users.email l) -> In u l -> In v l ->
  Users.email u = Users.email v -> u = v.
Proof.
  induction l as [| x l IH]; simpl; intros Hnd Hu Hv Heq; [contradiction |].
  inversion Hnd as [| e m Hnotin Hnd' [He Hm]]; subst e m.
  destruct Hu as [-> | Hu], Hv as [-> | Hv].
  - reflexivity.
  - exfalso. apply Hnotin. rewrite Heq. apply in_map. exact Hv.
  - exfalso. apply Hnotin. rewrite <- Heq. apply in_map. exact Hu.
  - apply IH; assumption.
Qed.

(** C3.  On the world any sequence of requests leaves after a start, for
    every stored user and every password that the comparison with the
    user's hash refuses, the login with the user's email and that
    password, and the login with an email no stored user has (whatever
    password comes with it), are answered alike: status 401 and the body
    [invalidMessage], the world unchanged.  The store answers both
    lookups. *)
Theorem login_failures_alike (d : Schema.database) (files : list string)
    (l : list (conditions * request)) (c c' : conditions)
    (user : Users.row) (wrong : string)
    (unknown : string) (password : option string) :
  exists w0,
    start d files = Some w0
    /\ let w := fst (serve l w0) in
       In user (rows (users (db w))) ->
       bcrypt_compare (Some wrong) (Users.password user) = Some false ->
       (forall u, In u (rows (users (db w))) -> Users.email u <> unknown) ->
       store_error c = None -> store_error c' = None ->
       login c (Some (Users.email user)) (Some wrong) w
       = (w, res_status_json 401 invalidMessage)
       /\ login c' (Some unknown) password w
          = (w, res_status_json 401 invalidMessage)
       /\ snd (login c (Some (Users.email user)) (Some wrong) w)
          = snd (login c' (Some unknown) password w).
Proof.
  exists (World seeded files). split; [apply start_seeded |].
  cbv zeta. intros Hin Hwrong Hunknown Hc Hc'.
  assert (H1 : login c (Some (Users.email user)) (Some wrong)
                     (fst (serve l (World seeded files)))
               = (fst (serve l (World seeded files)),
                  res_status_json 401 invalidMessage)).
  { apply login_mismatch; [exact Hc |].
    intros u Hu Heq.
    rewrite (unique_email_owner _ u user (served_emails_unique l files)
               Hu Hin Heq).
    exact Hwrong. }
  pose proof (login_unknown_email c' _ password _ Hc' Hunknown) as H2.
  rewrite H1, H2. repeat split.
Qed.

(** ** The progress query *)

(** A row of the left join comes from a topic of the catalog, and either
    from an assignment joined to it or from none at all. *)
Lemma in_left_join (user : value) (s : store) (r : Progress.row) :
  In r (left_join user s) ->
  exists t,
    In t (topics s)
    /\ ((r = progress_row t None
         /\ forall a, In a (rows (assignments s)) -> joins user t a = false)
        \/ exists a, In a (rows (assignments s)) /\ joins user t a = true
                     /\ r = progress_row t (Some a)).
Proof.
  unfold left_join. rewrite in_flat_map.
  intros [t [Ht Hr]]. exists t. split; [exact Ht |].
  destruct (filter (joins user t) (rows (assignments s))) as [| a0 m] eqn:Hf.
  - left. destruct Hr as [<- | []]. split; [reflexivity |].
    intros a Ha. destruct (joins user t a) eqn:Hj; [| reflexivity].
    assert (Hin : In a (filter (joins user t) (rows (assignments s))))
      by (apply filter_In; auto).
    rewrite Hf in Hin. contradiction.
  - right. apply in_map_iff in Hr. destruct Hr as [a [<- Ha]].
    rewrite <- Hf in Ha. apply filter_In in Ha.
    exists a. tauto.
Qed.

(** Every topic of the catalog has a row. *)
Lemma left_join_covers (user : value) (s : store) (t : Topics.row) :
  In t (topics s) ->
  exists r, In r (left_join user s) /\ Progress.topicId r = Topics.id t.
Proof.
  intros Ht. unfold left_join.
  destruct (filter (joins user t) (rows (assignments s))) as [| a0 m] eqn:Hf.
  - exists (progress_row t None). split; [| reflexivity].
    apply in_flat_map. exists t. rewrite Hf. simpl. auto.
  - exists (progress_row t (Some a0)). split; [| reflexivity].
    apply in_flat_map. exists t. rewrite Hf. simpl. auto.
Qed.

(** For a user that no assignment row carries, the listing is the
    catalog, row for row, with [completed] and [marks] at 0. *)
Lemma left_join_without_submission (user : value) (s : store) :
  (forall a, In a (rows (assignments s)) ->
             value_eqb (Assignments.user_id a) user = false) ->
  left_join user s
  = map (fun t => Progress.Row (Topics.id t) (Topics.module_name t)
                               (Topics.topic_name t) 0 0)
        (topics s).
Proof.
  intros Hnone. unfold left_join.
  assert (Hf : forall t, filter (joins user t) (rows (assignments s)) = []).
  { intros t.
    induction (rows (assignments s)) as [| a m IHm]; simpl.
    - reflexivity.
    - unfold joins at 1. rewrite (Hnone a (or_introl eq_refl)).
      rewrite andb_false_r. apply IHm.
      intros b Hb. apply Hnone. right. exact Hb. }
  rewrite (flat_map_ext _
             (fun t => [Progress.Row (Topics.id t) (Topics.module_name t)
                                     (Topics.topic_name t) 0 0])).
  - induction (topics s) as [| t l IH]; simpl; [reflexivity |].
    rewrite IH. reflexivity.
  - intros t. rewrite Hf. reflexivity.
Qed.

Lemma left_join_no_marks (user : value) (s : store) :
  no_marks s -> Forall (fun r => Progress.marks r = 0) (left_join user s).
Proof.
  intros Hs. apply Forall_forall. intros r Hr.
  apply in_left_join in Hr.
  destruct Hr as [t [_ [[-> _] | [a [Ha [_ ->]]]]]].
  - reflexivity.
  - simpl. unfold no_marks in Hs. rewrite Forall_forall in Hs.
    exact (Hs a Ha).
Qed.

(** ** What the running server never does *)

Lemma handle_no_marks (c : conditions) (r : request) (w : world) :
  no_marks (db w) ->
  no_marks (db (fst (handle c r w))) /\ shows_no_marks (snd (handle c r w)).
Proof.
  intros Hw. split.
  - destruct (handle_store c r w) as [_ [_ [Heq | [i [u [t [p Heq]]]]]]];
      unfold no_marks; rewrite Heq; [exact Hw |].
    apply Forall_app. split; [exact Hw |].
    constructor; [reflexivity | constructor].
  - destruct r as [u e p | e p | | u t [f |] | u]; simpl.
    + unfold signup.
      destruct u as [u |], e as [e |], p as [p |]; simpl; auto.
      destruct (empty u || empty e || empty p); simpl; auto.
      destruct (bcrypt_hash p); simpl; auto.
      destruct (insert_user c u e s (db w)) as [[s' i] | m]; simpl; auto.
    + unfold login.
      destruct (select_user_by_email c e (db w)) as [[x |] | m]; simpl; auto.
      destruct (bcrypt_compare p (Users.password x)) as [[|] |]; simpl; auto.
    + unfold modules. destruct (select_topics c (db w)); simpl; auto.
    + unfold upload.
      destruct (replace_into_assignments c _ _ _ (db w)) as [[s' i] | m];
        simpl; auto.
    + exact I.
    + unfold progress, select_progress.
      destruct (store_error c); simpl; auto.
      apply left_join_no_marks. exact Hw.
Qed.

(** C9.  From any start of the process and through any sequence of
    signups, logins, module listings, uploads and progress listings,
    under any store and unlink failures, every assignment row has
    [marks] 0 and every progress listing sent shows [marks] 0 in every
    row; an upload for a pair that has a row already is one more step of
    such a sequence. *)
Theorem marks_never_set (d : Schema.database) (files : list string)
    (l : list (conditions * request)) :
  exists w0,
    start d files = Some w0
    /\ no_marks (db (fst (serve l w0)))
    /\ Forall shows_no_marks (snd (serve l w0)).
Proof.
  exists (World seeded files). split; [apply start_seeded |].
  apply (serve_invariant (fun w => no_marks (db w)) shows_no_marks).
  - intros c r w. apply handle_no_marks.
  - constructor.
Qed.

Lemma handle_emails_nonempty (c : conditions) (r : request) (w : world) :
  emails_nonempty (db w) -> emails_nonempty (db (fst (handle c r w))).
Proof.
  intros Hw.
  destruct (handle_store c r w) as [_ [[Heq | [i [u [e [h [He [_ Heq]]]]]]] _]];
    unfold emails_nonempty; rewrite Heq; [exact Hw |].
  apply Forall_app. split; [exact Hw |].
  constructor; [exact He | constructor].
Qed.

Lemma served_emails_nonempty (l : list (conditions * request))
    (files : list string) :
  emails_nonempty (db (fst (serve l (World seeded files)))).
Proof.
  apply (serve_invariant (fun w => emails_nonempty (db w)) (fun _ => True)).
  - intros c r w Hw. split; [apply handle_emails_nonempty; exact Hw | exact I].
  - constructor.
Qed.

Lemma login_never_400 (c : conditions) (email password : option string)
    (w : world) (r : response) :
  snd (login c email password w) = Some r -> status r <> 400.
Proof.
  unfold login.
  destruct (select_user_by_email c email (db w)) as [[x |] | m]; simpl.
  - destruct (bcrypt_compare password (Users.password x)) as [[|] |]; simpl;
      intros Heq; try discriminate; injection Heq as <-; simpl; lia.
  - intros Heq. injection Heq as <-. simpl. lia.
  - intros Heq. injection Heq as <-. simpl. lia.
Qed.

(** X19.  What login does without a presence check.  On the world any
    sequence of requests leaves after a start, a login is never answered
    400, whatever is missing from it.  With the store answering, a login
    whose email is absent or empty finds no user and is answered 401 with
    [invalidMessage]; and a login whose email is stored is answered the
    same whenever the comparison of its password field, absent, empty
    or not, with the stored hash completes and reports a mismatch. *)
Theorem login_without_presence_check (d : Schema.database)
    (files : list string) (l : list (conditions * request))
    (c : conditions) (email password : option string) :
  exists w0,
    start d files = Some w0
    /\ let w := fst (serve l w0) in
       (forall r, snd (login c email password w) = Some r -> status r <> 400)
       /\ (store_error c = None -> absent_or_empty email = true ->
           login c email password w
           = (w, res_status_json 401 invalidMessage))
       /\ (store_error c = None ->
           forall e, email = Some e ->
             (forall u, In u (rows (users (db w))) -> Users.email u = e ->
                        bcrypt_compare password (Users.password u)
                        = Some false) ->
             login c email password w
             = (w, res_status_json 401 invalidMessage)).
Proof.
  exists (World seeded files). split; [apply start_seeded |].
  cbv zeta. split; [| split].
  - intros r. apply login_never_400.
  - intros Hc Hempty. destruct email as [e |].
    + apply login_unknown_email; [exact Hc |].
      intros u Hin Heq.
      pose proof (served_emails_nonempty l files) as Hinv.
      unfold emails_nonempty in Hinv. rewrite Forall_forall in Hinv.
      specialize (Hinv u Hin). simpl in Hempty.
      rewrite Heq, Hempty in Hinv. discriminate.
    + unfold login, select_user_by_email. rewrite Hc. reflexivity.
  - intros Hc e -> Hwrong. apply login_mismatch; assumption.
Qed.

(** ** Uploads and the rows of a pair *)

Lemma value_eqb_refl (v : value) : value_eqb v v = true.
Proof.
  destruct v as [z | t]; simpl.
  - apply Z.eqb_refl.
  - apply String.eqb_refl.
Qed.

(** An upload the store accepts adds a row to those of its pair and
    removes none, whether or not the pair had rows. *)
Lemma upload_adds_a_row (c : conditions) (userId topicId : string)
    (f : file) (w : world) :
  store_error c = None ->
  exists w' i,
    upload c userId topicId (Some f) w
    = (w', res_json (Uploaded "Assignment uploaded successfully" i))
    /\ rows_of_pair (numeric_affinity userId) (numeric_affinity topicId)
                    (db w')
       = rows_of_pair (numeric_affinity userId) (numeric_affinity topicId)
                      (db w)
         ++ [Assignments.Row i (numeric_affinity userId)
                             (numeric_affinity topicId) (path_of f) 0 1].
Proof.
  intros Hc. unfold upload.
  destruct (replace_into_assignments c (numeric_affinity userId)
              (numeric_affinity topicId) (path_of f) (db w))
    as [[s' i] | m] eqn:Hr.
  - exists (World s' (write_file (path_of f) (uploads w))), i.
    split; [reflexivity |].
    apply replace_into_assignments_appends in Hr.
    destruct Hr as [Hrows _].
    unfold rows_of_pair. simpl. rewrite Hrows, filter_app. simpl.
    rewrite !value_eqb_refl. reflexivity.
  - apply replace_into_assignments_fails in Hr. congruence.
Qed.

(** When at most one assignment joins each topic, the listing has the
    topics of the catalog, each once, in catalog order. *)
Lemma left_join_once (user : value) (s : store) :
  (forall t, In t (topics s) ->
             (List.length (filter (joins user t) (rows (assignments s)))
              <= 1)%nat) ->
  map Progress.topicId (left_join user s) = map Topics.id (topics s).
Proof.
  unfold left_join.
  induction (topics s) as [| t l IH]; intros Hone; [reflexivity |].
  cbn [flat_map]. rewrite map_app, IH.
  - pose proof (Hone t (or_introl eq_refl)) as Ht.
    destruct (filter (joins user t) (rows (assignments s)))
      as [| a [| b m]]; simpl in *; [reflexivity | reflexivity | lia].
  - intros t' Ht'. apply Hone. right. exact Ht'.
Qed.

End Properties.

(** * The specification's sentences at concrete requests *)

(** The scenario of the specification on the reference instance: alice
    signs up and gets id 1, bob is refused her email, a wrong password is
    refused, the right one is accepted. *)
Example scenario :
  @serve Reference.libraries
    [ (fair, Reference.alice_signs_up);
      (fair, PostSignup (Some "bob") (Some "a@x.com") (Some "pw456"));
      (fair, PostLogin (Some "a@x.com") (Some "wrong"));
      (fair, PostLogin (Some "a@x.com") (Some "pw123")) ]
    Reference.fresh_world
  = (Reference.with_alice,
     [ res_json (Registered "User registered successfully" 1);
       res_status_json 409 (Message "Email or username already in use.");
       res_status_json 401 invalidMessage;
       res_json (LoggedIn "Login successful" 1 "alice") ]).
Proof. vm_compute. reflexivity. Qed.

(** C1, on the code.  Two uploads of user 1 for topic 1 on a freshly
    started server are both answered 200, with assignment ids 1 and 2, and
    leave two assignment rows for the pair, the first upload's and the
    second's: the REPLACE finds no row to replace. *)
Theorem upload_twice_leaves_two_rows :
  @serve Reference.libraries
    [(fair, Reference.first_upload); (fair, Reference.second_upload)]
    Reference.fresh_world
  = (Reference.uploaded_twice,
     [ res_json (Uploaded "Assignment uploaded successfully" 1);
       res_json (Uploaded "Assignment uploaded successfully" 2) ])
  /\ rows_of_pair (VInteger 1) (VInteger 1) (db Reference.uploaded_twice)
     = [ Assignments.Row 1 (VInteger 1) (VInteger 1) "uploads/1000-a.pdf" 0 1;
         Assignments.Row 2 (VInteger 1) (VInteger 1) "uploads/2000-b.pdf" 0 1 ].
Proof. split; vm_compute; reflexivity. Qed.

(** C2, on the code.  After these two uploads the progress listing of
    user 1 has fifteen rows for the fourteen topics of the catalog: topic 1
    is listed twice. *)
Theorem progress_lists_topic_twice :
  exists l,
    @progress Reference.libraries fair "1" Reference.uploaded_twice
    = (Reference.uploaded_twice, res_json (ProgressRows l))
    /\ List.length (topics (db Reference.uploaded_twice)) = 14%nat
    /\ List.length l = 15%nat
    /\ occurrences 1 l = 2%nat.
Proof.
  eexists. split; [vm_compute; reflexivity |].
  repeat split.
Qed.

(** C3 at alice's account: the wrong password for her email and an email
    nobody registered. *)
Lemma login_failures_alike_witness :
  @login Reference.libraries fair (Some "a@x.com") (Some "wrong")
         Reference.with_alice
  = (Reference.with_alice, res_status_json 401 invalidMessage)
  /\ @login Reference.libraries fair (Some "nobody@x.com") (Some "pw123")
            Reference.with_alice
     = (Reference.with_alice, res_status_json 401 invalidMessage)
  /\ snd (@login Reference.libraries fair (Some "a@x.com") (Some "wrong")
                 Reference.with_alice)
     = snd (@login Reference.libraries fair (Some "nobody@x.com")
                   (Some "pw123") Reference.with_alice).
Proof.
  destruct (@login_failures_alike Reference.libraries
              (Schema.Database None None None) []
              [(fair, Reference.alice_signs_up)] fair fair
              (Users.Row 1 "alice" "a@x.com" "$2b$10$pw123")
              "wrong" "nobody@x.com" (Some "pw123"))
    as [w0 [Hstart Halike]].
  injection Hstart as <-.
  apply Halike.
  - simpl. left. reflexivity.
  - reflexivity.
  - intros u [<- | []]. discriminate.
  - reflexivity.
  - reflexivity.
Defined.

(** C4 as stated fails: with the disk full the insert of a fresh email
    fails without any uniqueness violation and the answer is 409, not
    500. *)
Lemma signup_disk_full_answers_409 :
  email_taken "a@x.com" (db Reference.fresh_world) = false
  /\ store_error Reference.disk_full
     = Some "SQLITE_FULL: database or disk is full"
  /\ @signup Reference.libraries Reference.disk_full
             (Some "alice") (Some "a@x.com") (Some "pw123")
             Reference.fresh_world
     = (Reference.fresh_world,
        res_status_json 409 (Message "Email or username already in use."))
  /\ forall b,
       snd (@signup Reference.libraries Reference.disk_full
                    (Some "alice") (Some "a@x.com") (Some "pw123")
                    Reference.fresh_world)
       <> res_status_json 500 b.
Proof.
  repeat split. intros b. vm_compute. discriminate.
Qed.

Lemma signup_failures_witness :
  @signup Reference.libraries Reference.disk_full
          (Some "alice") (Some "a@x.com") (Some "pw123") Reference.fresh_world
  = (Reference.fresh_world,
     res_status_json 409 (Message "Email or username already in use.")).
Proof.
  apply (proj2 (@signup_failures Reference.libraries Reference.disk_full
                  "alice" "a@x.com" "pw123" Reference.fresh_world
                  eq_refl eq_refl eq_refl)
               "$2b$10$pw123" eq_refl).
  left. discriminate.
Defined.

(** C5 with the disk full: the file saved for the upload is removed. *)
Lemma upload_failures_witness :
  exists w',
    @upload Reference.libraries Reference.disk_full "1" "1"
            (Some (File "a.pdf" 1000)) Reference.fresh_world
    = (w', res_status_json 500
             (Message "SQLITE_FULL: database or disk is full"))
    /\ db w' = db Reference.fresh_world
    /\ ~ In "uploads/1000-a.pdf" (uploads w').
Proof.
  destruct (proj2 (@upload_failures Reference.libraries Reference.disk_full
                     "1" "1" Reference.fresh_world)
                  (File "a.pdf" 1000) "SQLITE_FULL: database or disk is full"
                  eq_refl)
    as [w' [Hup [Hdb [_ [Hgone _]]]]].
  exists w'. split; [exact Hup |]. split; [exact Hdb |].
  exact (Hgone eq_refl).
Defined.

(** C8 at a signup without password and at alice's. *)
Lemma signup_validation_witness :
  @signup Reference.libraries fair (Some "alice") (Some "a@x.com") None
          Reference.fresh_world
  = (Reference.fresh_world,
     res_status_json 400 (Message "Missing required fields"))
  /\ exists w' userId,
       @signup Reference.libraries fair (Some "alice") (Some "a@x.com")
               (Some "pw123") Reference.fresh_world
       = (w', res_json (Registered "User registered successfully" userId))
       /\ rows (users (db w'))
          = [Users.Row userId "alice" "a@x.com" "$2b$10$pw123"].
Proof.
  split.
  - apply (proj1 (@signup_validation Reference.libraries fair (Some "alice")
                    (Some "a@x.com") None Reference.fresh_world)).
    right. right. reflexivity.
  - destruct (proj2 (@signup_validation Reference.libraries fair
                       (Some "alice") (Some "a@x.com") (Some "pw123")
                       Reference.fresh_world)
                    "alice" "a@x.com" "pw123" "$2b$10$pw123"
                    eq_refl eq_refl eq_refl eq_refl eq_refl eq_refl
                    (fun x (Hin : In x []) _ => match Hin with end)
                    eq_refl eq_refl)
      as [w' [userId [Hs [_ [Hrows _]]]]].
    exists w', userId. split; [exact Hs | exact Hrows].
Defined.

(** C10, on the code.  With alice registered, a login with her email and
    no password field passes the lookup and reaches [bcrypt.compare] with
    no data: the promise rejects outside any [try], and the request is
    left without any answer, where the claim has the 401 of the other
    failed logins. *)
Lemma login_missing_password_unanswered :
  fst (@serve Reference.libraries [(fair, Reference.alice_signs_up)]
              Reference.fresh_world)
  = Reference.with_alice
  /\ @login Reference.libraries fair (Some "a@x.com") None Reference.with_alice
     = (Reference.with_alice, None)
  /\ snd (@login Reference.libraries fair (Some "a@x.com") None
                 Reference.with_alice)
     <> res_status_json 401 invalidMessage.
Proof.
  repeat split. vm_compute. discriminate.
Qed.

(** X19 at alice's email with an empty password, and at an empty email. *)
Lemma login_without_presence_check_witness :
  @login Reference.libraries fair (Some "a@x.com") (Some "")
         Reference.with_alice
  = (Reference.with_alice, res_status_json 401 invalidMessage)
  /\ @login Reference.libraries fair (Some "") (Some "pw123")
            Reference.with_alice
     = (Reference.with_alice, res_status_json 401 invalidMessage).
Proof.
  split.
  - destruct (@login_without_presence_check Reference.libraries
                (Schema.Database None None None) []
                [(fair, Reference.alice_signs_up)] fair
                (Some "a@x.com") (Some ""))
      as [w0 [Hstart [_ [_ Hmismatch]]]].
    injection Hstart as <-.
    apply (Hmismatch eq_refl "a@x.com" eq_refl).
    intros u [<- | []] _. reflexivity.
  - destruct (@login_without_presence_check Reference.libraries
                (Schema.Database None None None) []
                [(fair, Reference.alice_signs_up)] fair
                (Some "") (Some "pw123"))
      as [w0 [Hstart [_ [Hempty _]]]].
    injection Hstart as <-.
    exact (Hempty eq_refl eq_refl).
Defined.

(** * Further properties of the handlers *)

Section Conduct.

Context `{Libraries}.

(** ** Runs *)

Lemma serve_app (l1 l2 : list (conditions * request)) (w : world) :
  fst (serve (l1 ++ l2) w) = fst (serve l2 (fst (serve l1 w))).
Proof.
  revert w. induction l1 as [| [c r] l1 IH]; intros w; simpl.
  - reflexivity.
  - destruct (handle c r w) as [w1 a].
    specialize (IH w1).
    destruct (serve (l1 ++ l2) w1) as [w2 answers].
    destruct (serve l1 w1) as [w3 answers'].
    simpl in *. exact IH.
Qed.

(** A run leaves the catalog alone and only appends to the two other
    tables. *)
Lemma serve_store (l : list (conditions * request)) (w : world) :
  topics (db (fst (serve l w))) = topics (db w)
  /\ (exists more,
        rows (users (db (fst (serve l w)))) = rows (users (db w)) ++ more)
  /\ (exists more,
        rows (assignments (db (fst (serve l w))))
        = rows (assignments (db w)) ++ more).
Proof.
  apply (serve_invariant
           (fun w' =>
              topics (db w') = topics (db w)
              /\ (exists more,
                    rows (users (db w')) = rows (users (db w)) ++ more)
              /\ (exists more,
                    rows (assignments (db w'))
                    = rows (assignments (db w)) ++ more))
           (fun _ => True)).
  - intros c r w' [Ht [[mu Hu] [ma Ha]]]. split; [| exact I].
    destruct (handle_store c r w') as [Ht' [Hu' Ha']].
    split; [congruence |]. split.
    + destruct Hu' as [-> | [i [u [e [h [_ [_ ->]]]]]]].
      * exists mu. exact Hu.
      * exists (mu ++ [Users.Row i u e h]). rewrite Hu, app_assoc. reflexivity.
    + destruct Ha' as [-> | [i [u [t [p ->]]]]].
      * exists ma. exact Ha.
      * exists (ma ++ [Assignments.Row i u t p 0 1]).
        rewrite Ha, app_assoc. reflexivity.
  - split; [reflexivity |].
    split; exists []; rewrite app_nil_r; reflexivity.
Qed.

(** X1.  The catalog is immutable once seeded: after any sequence of
    requests, under any failures, [topics] still holds the fourteen seed
    rows, and [GET /api/modules] answers them whenever the store answers. *)
Theorem catalog_never_changes (d : Schema.database) (files : list string)
    (l : list (conditions * request)) (unlink_fails : bool) :
  exists w0,
    start d files = Some w0
    /\ topics (db (fst (serve l w0))) = seed_rows
    /\ modules (Conditions None unlink_fails) (fst (serve l w0))
       = (fst (serve l w0), res_json (TopicRows seed_rows))
    /\ List.length seed_rows = 14%nat.
Proof.
  exists (World seeded files). split; [apply start_seeded |].
  destruct (serve_store l (World seeded files)) as [Ht _].
  simpl in Ht. split; [exact Ht |].
  unfold modules, select_topics. simpl. rewrite Ht.
  split; reflexivity.
Qed.

(** X2.  A request that is not answered 200, be it refused with an error
    status or left without answer, leaves every table of the store as it
    was. *)
Theorem unsuccessful_requests_leave_store (c : conditions) (r : request)
    (w : world) :
  (forall b, snd (handle c r w) <> res_json b) ->
  db (fst (handle c r w)) = db w.
Proof.
  destruct r as [u e p | e p | | u t [f |] | u]; simpl.
  - unfold signup.
    destruct u as [u |], e as [e |], p as [p |]; simpl; auto.
    destruct (empty u || empty e || empty p); simpl; auto.
    destruct (bcrypt_hash p) as [h |]; simpl; auto.
    destruct (insert_user c u e h (db w)) as [[s' i] | m]; simpl; auto.
    intros Hno. exfalso. exact (Hno _ eq_refl).
  - unfold login.
    destruct (select_user_by_email c e (db w)) as [[x |] | m]; simpl; auto.
    destruct (bcrypt_compare p (Users.password x)) as [[|] |]; simpl; auto.
  - unfold modules. destruct (select_topics c (db w)); simpl; auto.
  - unfold upload.
    destruct (replace_into_assignments c _ _ _ (db w)) as [[s' i] | m];
      simpl; auto.
    intros Hno. exfalso. exact (Hno _ eq_refl).
  - auto.
  - unfold progress.
    destruct (select_progress c _ (db w)); simpl; auto.
Qed.

(** X3.  The login, the module listing and the progress listing are
    read-only: whatever they answer, the store and the uploads directory
    are what they were. *)
Theorem read_only_routes (c : conditions) (w : world)
    (email password : option string) (userId : string) :
  fst (login c email password w) = w
  /\ fst (modules c w) = w
  /\ fst (progress c userId w) = w.
Proof.
  split; [| split].
  - unfold login.
    destruct (select_user_by_email c email (db w)) as [[x |] | m];
      try reflexivity.
    destruct (bcrypt_compare password (Users.password x)) as [[|] |];
      reflexivity.
  - unfold modules. destruct (select_topics c (db w)); reflexivity.
  - unfold progress.
    destruct (select_progress c _ (db w)); reflexivity.
Qed.

(** X4.  Each route answers with one of its own statuses only: signup
    200, 400, 409 or 500; login 200, 401 or 500; the two listings 200 or
    500; upload 200, 400 or 500.  A request left without any answer is a
    login. *)
Theorem route_statuses (c : conditions) (r : request) (w : world) :
  (forall a, snd (handle c r w) = Some a -> In (status a) (possible_statuses r))
  /\ (snd (handle c r w) = None -> exists email password, r = PostLogin email password).
Proof.
  destruct r as [u e p | e p | | u t [f |] | u]; simpl.
  - unfold signup.
    destruct u as [u |], e as [e |], p as [p |]; simpl;
      try (split; [intros ? [= <-]; simpl; tauto | discriminate]).
    destruct (empty u || empty e || empty p); simpl;
      try (split; [intros ? [= <-]; simpl; tauto | discriminate]).
    destruct (bcrypt_hash p) as [h |]; simpl;
      try (split; [intros ? [= <-]; simpl; tauto | discriminate]).
    destruct (insert_user c u e h (db w)) as [[s' i] | m]; simpl;
      split; try discriminate; intros ? [= <-]; simpl; tauto.
  - split; [| intros _; eauto].
    unfold login.
    destruct (select_user_by_email c e (db w)) as [[x |] | m]; simpl;
      try (intros ? [= <-]; simpl; tauto).
    destruct (bcrypt_compare p (Users.password x)) as [[|] |]; simpl;
      try discriminate; intros ? [= <-]; simpl; tauto.
  - unfold modules. destruct (select_topics c (db w)); simpl;
      split; try discriminate; intros ? [= <-]; simpl; tauto.
  - unfold upload.
    destruct (replace_into_assignments c _ _ _ (db w)) as [[s' i] | m];
      simpl; split; try discriminate; intros ? [= <-]; simpl; tauto.
  - split; [intros ? [= <-]; simpl; tauto | discriminate].
  - unfold progress.
    destruct (select_progress c _ (db w)); simpl;
      split; try discriminate; intros ? [= <-]; simpl; tauto.
Qed.

(** ** Users *)

Lemma login_keeps_world (c : conditions) (w : world)
    (email password : option string) :
  fst (login c email password w) = w.
Proof.
  unfold login.
  destruct (select_user_by_email c email (db w)) as [[x |] | m];
    try reflexivity.
  destruct (bcrypt_compare password (Users.password x)) as [[|] |];
    reflexivity.
Qed.

(** What a handler does to [users]: nothing, or the row of a signup. *)
Lemma handle_users (c : conditions) (r : request) (w : world) :
  users (db (fst (handle c r w))) = users (db w)
  \/ exists u e p h,
       empty u = false /\ empty e = false /\ empty p = false
       /\ bcrypt_hash p = Some h
       /\ r = PostSignup (Some u) (Some e) (Some p)
       /\ snd (handle c r w)
          = res_json (Registered "User registered successfully"
                                 (next_rowid Users.id (users (db w))))
       /\ users (db (fst (handle c r w)))
          = Table (rows (users (db w))
                     ++ [Users.Row (next_rowid Users.id (users (db w))) u e h])
                  (next_rowid Users.id (users (db w))).
Proof.
  destruct r as [u e p | e p | | u t [f |] | u]; simpl.
  - unfold signup.
    destruct u as [u |], e as [e |], p as [p |]; simpl; auto.
    destruct (empty u) eqn:Hu, (empty e) eqn:He, (empty p) eqn:Hp;
      simpl; auto.
    destruct (bcrypt_hash p) as [h |] eqn:Hh; simpl; auto.
    unfold insert_user.
    destruct (store_error c); simpl; auto.
    destruct (existsb _ _); simpl; auto.
    right. exists u, e, p, h. repeat split; auto.
  - left. rewrite login_keeps_world. reflexivity.
  - left. unfold modules. destruct (select_topics c (db w)); reflexivity.
  - left. unfold upload.
    destruct (replace_into_assignments c _ _ _ (db w)) as [[s' i] | m] eqn:Hr;
      simpl; auto.
    apply replace_into_assignments_appends in Hr. tauto.
  - auto.
  - left. unfold progress.
    destruct (select_progress c _ (db w)); reflexivity.
Qed.

Lemma handle_written_by_signup (c : conditions) (r : request) (w : world) :
  Forall written_by_signup (rows (users (db w))) ->
  Forall written_by_signup (rows (users (db (fst (handle c r w))))).
Proof.
  intros Hw.
  destruct (handle_users c r w)
    as [-> | [u [e [p [h [Hu [He [Hp [Hh [_ [_ ->]]]]]]]]]]]; [exact Hw |].
  simpl. apply Forall_app. split; [exact Hw |].
  constructor; [| constructor].
  unfold written_by_signup. simpl. eauto.
Qed.

(** X5.  On every world the server reaches, each stored user has a
    non-empty username and a non-empty email, its password column holds
    what [bcrypt.hash] returned for a non-empty password, and no two
    stored users share an email. *)
Theorem stored_users_wellformed (d : Schema.database) (files : list string)
    (l : list (conditions * request)) :
  exists w0,
    start d files = Some w0
    /\ Forall written_by_signup (rows (users (db (fst (serve l w0)))))
    /\ NoDup (map Users.email (rows (users (db (fst (serve l w0)))))).
Proof.
  exists (World seeded files). split; [apply start_seeded |].
  split; [| apply served_emails_unique].
  apply (serve_invariant
           (fun w => Forall written_by_signup (rows (users (db w))))
           (fun _ => True)).
  - intros c r w Hw. split; [| exact I].
    apply handle_written_by_signup. exact Hw.
  - constructor.
Qed.

Lemma serve_cons (c : conditions) (r : request)
    (l : list (conditions * request)) (w : world) :
  fst (serve ((c, r) :: l) w) = fst (serve l (fst (handle c r w))).
Proof.
  simpl. destruct (handle c r w) as [w1 a]. simpl.
  destruct (serve l w1) as [w2 answers]. reflexivity.
Qed.

(** The row a successful signup leaves. *)
Lemma signup_registers (c : conditions) (u e p hashed m : string) (w w' : world)
    (userId : Z) :
  signup c (Some u) (Some e) (Some p) w = (w', res_json (Registered m userId)) ->
  bcrypt_hash p = Some hashed ->
  rows (users (db w')) = rows (users (db w)) ++ [Users.Row userId u e hashed].
Proof.
  unfold signup.
  destruct (empty u || empty e || empty p); [discriminate |].
  intros Hs Hh. rewrite Hh in Hs.
  unfold insert_user in Hs.
  destruct (store_error c); [discriminate |].
  destruct (existsb _ _); [discriminate |].
  injection Hs as <- _ <-. reflexivity.
Qed.

(** X6.  Signup then login.  A user whose signup was answered 200 logs in
    with the same email and password after any further sequence of
    requests, and is answered 200 with the id the signup returned and the
    username given at signup, provided the store answers the lookup and
    [bcrypt.compare] accepts the password against the hash [bcrypt.hash]
    made of it. *)
Theorem signup_then_login (d : Schema.database) (files : list string)
    (l1 l2 : list (conditions * request)) (c c' : conditions)
    (u e p hashed : string) :
  exists w0,
    start d files = Some w0
    /\ forall w2 userId,
         signup c (Some u) (Some e) (Some p) (fst (serve l1 w0))
         = (w2, res_json (Registered "User registered successfully" userId)) ->
         bcrypt_hash p = Some hashed ->
         bcrypt_compare (Some p) hashed = Some true ->
         store_error c' = None ->
         login c' (Some e) (Some p) (fst (serve l2 w2))
         = (fst (serve l2 w2),
            res_json (LoggedIn "Login successful" userId u)).
Proof.
  exists (World seeded files). split; [apply start_seeded |].
  intros w2 userId Hs Hh Hcmp Hc'.
  pose proof (signup_registers _ _ _ _ _ _ _ _ _ Hs Hh) as Hrows.
  set (w1 := fst (serve l1 (World seeded files))) in *.
  set (r := PostSignup (Some u) (Some e) (Some p)).
  assert (Hw2 : w2 = fst (handle c r w1)).
  { unfold r, handle. rewrite Hs. reflexivity. }
  assert (Hrun : fst (serve l2 w2)
                 = fst (serve (l1 ++ (c, r) :: l2) (World seeded files))).
  { rewrite serve_app, serve_cons. fold w1. rewrite <- Hw2. reflexivity. }
  pose proof (served_emails_unique (l1 ++ (c, r) :: l2) files) as Huniq.
  rewrite <- Hrun in Huniq. unfold emails_unique in Huniq.
  destruct (serve_store l2 w2) as [_ [[more Hmore] _]].
  assert (Hin : In (Users.Row userId u e hashed)
                   (rows (users (db (fst (serve l2 w2)))))).
  { rewrite Hmore, Hrows. apply in_or_app. left.
    apply in_or_app. right. left. reflexivity. }
  unfold login, select_user_by_email. rewrite Hc'.
  destruct (find _ _) as [x |] eqn:Hf.
  - apply find_some in Hf. destruct Hf as [Hx Hxe].
    apply String.eqb_eq in Hxe.
    assert (Heq : x = Users.Row userId u e hashed)
      by (apply (unique_email_owner _ _ _ Huniq Hx Hin); exact Hxe).
    subst x. simpl. rewrite Hcmp. reflexivity.
  - exfalso.
    apply (proj1 (find_none_iff e _) Hf _ Hin). reflexivity.
Qed.

(** ** Rowids *)

Lemma max_rowid_le {row : Type} (rowid : row -> Z) (l : list row) (m : Z) :
  0 <= m -> (forall r, In r l -> rowid r <= m) -> max_rowid rowid l <= m.
Proof.
  intros Hm. induction l as [| x l IH]; simpl; intros Hall.
  - exact Hm.
  - apply Z.max_lub.
    + apply Hall. left. reflexivity.
    + apply IH. intros r Hr. apply Hall. right. exact Hr.
Qed.

Lemma counted_next {row : Type} (rowid : row -> Z) (t : table row) :
  counted rowid t ->
  next_rowid rowid t = Z.of_nat (List.length (rows t)) + 1.
Proof.
  intros [Hids Hseq]. unfold next_rowid. rewrite Hseq.
  rewrite Z.max_l; [reflexivity |].
  apply max_rowid_le; [lia |].
  intros r Hr.
  assert (Hin : In (rowid r) (map rowid (rows t))) by (apply in_map; exact Hr).
  rewrite Hids in Hin. unfold first_rowids in Hin.
  apply in_map_iff in Hin. destruct Hin as [k [Hk Hin]].
  apply in_seq in Hin. lia.
Qed.

Lemma counted_append {row : Type} (rowid : row -> Z) (t : table row) (r : row) :
  counted rowid t -> rowid r = next_rowid rowid t ->
  counted rowid (Table (rows t ++ [r]) (next_rowid rowid t)).
Proof.
  intros Ht Hr. pose proof (counted_next rowid t Ht) as Hnext.
  destruct Ht as [Hids Hseq]. unfold counted. simpl.
  rewrite length_app, map_app. simpl. rewrite Nat.add_1_r.
  split.
  - unfold first_rowids in *. rewrite seq_S, map_app, <- Hids. simpl.
    rewrite Hr, Hnext. do 2 f_equal. lia.
  - rewrite Hnext. lia.
Qed.

(** What a handler does to [assignments]: nothing, or the row of an
    upload. *)
Lemma handle_assignments (c : conditions) (r : request) (w : world) :
  assignments (db (fst (handle c r w))) = assignments (db w)
  \/ exists u t f,
       r = PostUpload u t (Some f)
       /\ store_error c = None
       /\ snd (handle c r w)
          = res_json (Uploaded "Assignment uploaded successfully"
                               (next_rowid Assignments.id (assignments (db w))))
       /\ assignments (db (fst (handle c r w)))
          = Table (rows (assignments (db w))
                     ++ [Assignments.Row
                           (next_rowid Assignments.id (assignments (db w)))
                           (numeric_affinity u) (numeric_affinity t)
                           (path_of f) 0 1])
                  (next_rowid Assignments.id (assignments (db w))).
Proof.
  destruct r as [u e p | e p | | u t [f |] | u]; simpl.
  - left. unfold signup.
    destruct u as [u |], e as [e |], p as [p |]; simpl; auto.
    destruct (empty u || empty e || empty p); simpl; auto.
    destruct (bcrypt_hash p) as [h |]; simpl; auto.
    unfold insert_user.
    destruct (store_error c); simpl; auto.
    destruct (existsb _ _); simpl; auto.
  - left. rewrite login_keeps_world. reflexivity.
  - left. unfold modules. destruct (select_topics c (db w)); reflexivity.
  - unfold upload, replace_into_assignments.
    destruct (store_error c); simpl; auto.
    right. exists u, t, f. rewrite replace_keeps_rows. auto.
  - auto.
  - left. unfold progress.
    destruct (select_progress c _ (db w)); reflexivity.
Qed.

Lemma handle_counted (c : conditions) (r : request) (w : world) :
  counted Users.id (users (db w))
  /\ counted Assignments.id (assignments (db w)) ->
  counted Users.id (users (db (fst (handle c r w))))
  /\ counted Assignments.id (assignments (db (fst (handle c r w)))).
Proof.
  intros [Hu Ha]. split.
  - destruct (handle_users c r w)
      as [-> | [u [e [p [h [_ [_ [_ [_ [_ [_ ->]]]]]]]]]]]; [exact Hu |].
    apply counted_append; [exact Hu | reflexivity].
  - destruct (handle_assignments c r w)
      as [-> | [u [t [f [_ [_ [_ ->]]]]]]]; [exact Ha |].
    apply counted_append; [exact Ha | reflexivity].
Qed.

Lemma served_counted (l : list (conditions * request)) (files : list string) :
  counted Users.id (users (db (fst (serve l (World seeded files)))))
  /\ counted Assignments.id
       (assignments (db (fst (serve l (World seeded files))))).
Proof.
  apply (serve_invariant
           (fun w => counted Users.id (users (db w))
                     /\ counted Assignments.id (assignments (db w)))
           (fun _ => True)).
  - intros c r w Hw. split; [apply handle_counted; exact Hw | exact I].
  - split; split; reflexivity.
Qed.

(** X7.  Ids count up from 1.  On every world the server reaches, the ids
    of the stored users are 1, 2, ..., n in insertion order, and so are
    the ids of the assignment rows; the next signup answered 200 returns
    n + 1 for n stored users, and the next upload answered 200 returns
    n + 1 for n assignment rows. *)
Theorem rowids_count_up (d : Schema.database) (files : list string)
    (l : list (conditions * request)) :
  exists w0,
    start d files = Some w0
    /\ let w := fst (serve l w0) in
       map Users.id (rows (users (db w)))
       = first_rowids (List.length (rows (users (db w))))
       /\ map Assignments.id (rows (assignments (db w)))
          = first_rowids (List.length (rows (assignments (db w))))
       /\ (forall c u e p w' m userId,
             signup c u e p w = (w', res_json (Registered m userId)) ->
             userId = Z.of_nat (List.length (rows (users (db w)))) + 1)
       /\ (forall c u t f w' m assignmentId,
             upload c u t f w = (w', res_json (Uploaded m assignmentId)) ->
             assignmentId
             = Z.of_nat (List.length (rows (assignments (db w)))) + 1).
Proof.
  exists (World seeded files). split; [apply start_seeded |].
  cbv zeta.
  destruct (served_counted l files) as [Hu Ha].
  set (w := fst (serve l (World seeded files))) in *.
  split; [exact (proj1 Hu) |]. split; [exact (proj1 Ha) |]. split.
  - intros c u e p w' m userId Hs.
    rewrite <- (counted_next Users.id _ Hu).
    unfold signup in Hs.
    destruct u as [u |], e as [e |], p as [p |]; try discriminate.
    destruct (empty u || empty e || empty p); [discriminate |].
    destruct (bcrypt_hash p); [| discriminate].
    unfold insert_user in Hs.
    destruct (store_error c); [discriminate |].
    destruct (existsb _ _); [discriminate |].
    injection Hs as _ _ <-. reflexivity.
  - intros c u t f w' m assignmentId Hs.
    rewrite <- (counted_next Assignments.id _ Ha).
    unfold upload in Hs. destruct f as [f |]; [| discriminate].
    unfold replace_into_assignments in Hs.
    destruct (store_error c); [discriminate |].
    injection Hs as _ _ <-. reflexivity.
Qed.

(** ** Uploads *)

Lemma value_eqb_eq (a b : value) : value_eqb a b = true <-> a = b.
Proof.
  destruct a as [x | x], b as [y | y]; simpl;
    try (split; [discriminate | intros [=]]).
  - rewrite Z.eqb_eq. split; [intros -> | intros [=]]; auto.
  - rewrite String.eqb_eq. split; [intros -> | intros [=]]; auto.
Qed.

(** X8.  An upload the store accepts is answered 200 whatever the user id
    and the topic id, known or not: it appends one row carrying the
    coerced ids, the path of the saved file, [completed] 1 and [marks] 0
    under an id no earlier row has, leaves every earlier assignment row,
    the users and the topics as they were, and the saved file is in the
    uploads directory next to the files already there. *)
Theorem accepted_upload (c : conditions) (userId topicId : string)
    (f : file) (w : world) :
  store_error c = None ->
  exists w' assignmentId,
    upload c userId topicId (Some f) w
    = (w', res_json (Uploaded "Assignment uploaded successfully"
                              assignmentId))
    /\ rows (assignments (db w'))
       = rows (assignments (db w))
         ++ [Assignments.Row assignmentId (numeric_affinity userId)
                             (numeric_affinity topicId) (path_of f) 0 1]
    /\ (forall a, In a (rows (assignments (db w))) ->
                  Assignments.id a <> assignmentId)
    /\ users (db w') = users (db w)
    /\ topics (db w') = topics (db w)
    /\ In (path_of f) (uploads w')
    /\ (forall q, In q (uploads w) -> In q (uploads w')).
Proof.
  intros Hc. unfold upload, replace_into_assignments. rewrite Hc.
  eexists. eexists. split; [reflexivity |]. simpl.
  rewrite replace_keeps_rows.
  split; [reflexivity |]. split.
  - intros a Ha.
    pose proof (next_rowid_fresh Assignments.id _ a Ha). lia.
  - repeat split.
    + apply in_write_file. left. reflexivity.
    + intros q Hq. apply in_write_file. right. exact Hq.
Qed.

(** X9.  Files leave the uploads directory in one way only: a file that
    was there before a request and is not there after it is the file of
    this very request, an upload that the store refused and whose unlink
    went through.  No other request, and no accepted upload, removes a
    file; an earlier file of the same pair stays. *)
Theorem only_failed_upload_removes_file (c : conditions) (r : request)
    (w : world) (q : string) :
  In q (uploads w) ->
  ~ In q (uploads (fst (handle c r w))) ->
  exists u t f m,
    r = PostUpload u t (Some f) /\ q = path_of f
    /\ store_error c = Some m /\ unlink_error c = false.
Proof.
  intros Hq Hgone.
  destruct r as [u e p | e p | | u t [f |] | u]; simpl in Hgone.
  - exfalso. apply Hgone. unfold signup.
    destruct u as [u |], e as [e |], p as [p |]; simpl; auto.
    destruct (empty u || empty e || empty p); simpl; auto.
    destruct (bcrypt_hash p) as [h |]; simpl; auto.
    destruct (insert_user c u e h (db w)) as [[s' i] | m]; simpl; auto.
  - exfalso. apply Hgone. rewrite login_keeps_world. exact Hq.
  - exfalso. apply Hgone. unfold modules.
    destruct (select_topics c (db w)); exact Hq.
  - unfold upload, replace_into_assignments in Hgone.
    destruct (store_error c) as [m |] eqn:Hc; simpl in Hgone.
    + destruct (unlink_error c) eqn:Hu.
      * exfalso. apply Hgone. unfold unlink. rewrite Hu.
        apply in_write_file. right. exact Hq.
      * exists u, t, f, m. repeat split; auto.
        destruct (String.eqb_spec q (path_of f)) as [Heq | Hne]; [exact Heq |].
        exfalso. apply Hgone. apply (in_unlink c _ _ _ Hu).
        split; [exact Hne |]. apply in_write_file. right. exact Hq.
    + exfalso. apply Hgone. apply in_write_file. right. exact Hq.
  - exfalso. apply Hgone. exact Hq.
  - exfalso. apply Hgone. unfold progress.
    destruct (select_progress c _ (db w)); exact Hq.
Qed.

(** ** Progress listings *)

Lemma flat_map_ext_in {A B : Type} (f g : A -> list B) (l : list A) :
  (forall a, In a l -> f a = g a) -> flat_map f l = flat_map g l.
Proof.
  induction l as [| x l IH]; intros Hfg; [reflexivity |].
  cbn [flat_map]. rewrite (Hfg x (or_introl eq_refl)), IH; [reflexivity |].
  intros a Ha. apply Hfg. right. exact Ha.
Qed.

(** A row that joins no topic for a user does not show in the user's
    listing. *)
Lemma left_join_append_unjoined (user : value) (s s' : store)
    (a : Assignments.row) :
  topics s' = topics s ->
  rows (assignments s') = rows (assignments s) ++ [a] ->
  (forall t, In t (topics s) -> joins user t a = false) ->
  left_join user s' = left_join user s.
Proof.
  intros Ht Ha Hno. unfold left_join. rewrite Ht, Ha.
  apply flat_map_ext_in. intros t Hin.
  rewrite filter_app. simpl. rewrite (Hno t Hin), app_nil_r. reflexivity.
Qed.

(** X10.  An upload by one user never changes what the progress listing
    answers for a user whose id is coerced to a different value, whether
    the store accepts the upload or not. *)
Theorem upload_leaves_other_users_progress (c c' : conditions)
    (userId topicId other : string) (f : option file) (w : world) :
  numeric_affinity userId <> numeric_affinity other ->
  snd (progress c' other (fst (upload c userId topicId f w)))
  = snd (progress c' other w).
Proof.
  intros Hne. unfold progress, select_progress.
  destruct (store_error c'); [reflexivity |].
  destruct f as [f |]; [| reflexivity].
  unfold upload, replace_into_assignments.
  destruct (store_error c); [reflexivity |]. simpl.
  rewrite (left_join_append_unjoined (numeric_affinity other) (db w) _
             (Assignments.Row (next_rowid Assignments.id (assignments (db w)))
                              (numeric_affinity userId)
                              (numeric_affinity topicId) (path_of f) 0 1));
    try reflexivity.
  - simpl. rewrite replace_keeps_rows. reflexivity.
  - intros t _. unfold joins.
    cbn [Assignments.topic_id Assignments.user_id].
    destruct (value_eqb (numeric_affinity userId) (numeric_affinity other))
      eqn:Heq.
    + apply value_eqb_eq in Heq. contradiction.
    + apply andb_false_r.
Qed.

(** X11.  An upload for a topic id that is no id of the catalog is
    accepted like any other but changes no progress listing, of the
    uploader or of anybody else. *)
Theorem orphan_upload_invisible (c c' : conditions)
    (userId topicId anyone : string) (f : file) (w : world) :
  (forall t, In t (topics (db w)) ->
             numeric_affinity topicId <> VInteger (Topics.id t)) ->
  snd (progress c' anyone (fst (upload c userId topicId (Some f) w)))
  = snd (progress c' anyone w).
Proof.
  intros Horphan. unfold progress, select_progress.
  destruct (store_error c'); [reflexivity |].
  unfold upload, replace_into_assignments.
  destruct (store_error c); [reflexivity |]. simpl.
  rewrite (left_join_append_unjoined (numeric_affinity anyone) (db w) _
             (Assignments.Row (next_rowid Assignments.id (assignments (db w)))
                              (numeric_affinity userId)
                              (numeric_affinity topicId) (path_of f) 0 1));
    try reflexivity.
  - simpl. rewrite replace_keeps_rows. reflexivity.
  - intros t Ht. unfold joins.
    cbn [Assignments.topic_id Assignments.user_id].
    destruct (value_eqb (VInteger (Topics.id t)) (numeric_affinity topicId))
      eqn:Heq; [| reflexivity].
    apply value_eqb_eq in Heq. exfalso.
    apply (Horphan t Ht). symmetry. exact Heq.
Qed.

(** X12.  Whatever the assignments, the topic ids a progress listing
    shows are exactly the ids of the catalog: no topic is missing and no
    row is about anything else; and each row carries the module name and
    the topic name of a topic with its id. *)
Theorem progress_topics_are_the_catalog (user : value) (s : store) :
  (forall i, In i (map Progress.topicId (left_join user s))
             <-> In i (map Topics.id (topics s)))
  /\ Forall (fun r =>
               exists t, In t (topics s)
                         /\ Progress.topicId r = Topics.id t
                         /\ Progress.module_name r = Topics.module_name t
                         /\ Progress.topic_name r = Topics.topic_name t)
            (left_join user s).
Proof.
  assert (Hrow : forall r, In r (left_join user s) ->
                           exists t, In t (topics s)
                             /\ Progress.topicId r = Topics.id t
                             /\ Progress.module_name r = Topics.module_name t
                             /\ Progress.topic_name r = Topics.topic_name t).
  { intros r Hr. apply in_left_join in Hr.
    destruct Hr as [t [Ht [[-> _] | [a [_ [_ ->]]]]]];
      exists t; repeat split; exact Ht. }
  split.
  - intros i. rewrite !in_map_iff. split.
    + intros [r [<- Hr]]. destruct (Hrow r Hr) as [t [Ht [Hid _]]].
      exists t. split; [symmetry; exact Hid | exact Ht].
    + intros [t [<- Ht]].
      destruct (left_join_covers user s t Ht) as [r [Hr Hid]].
      exists r. split; assumption.
  - apply Forall_forall. exact Hrow.
Qed.

Lemma nodup_map_inj {A B : Type} (f : A -> B) (l : list A) (x y : A) :
  NoDup (map f l) -> In x l -> In y l -> f x = f y -> x = y.
Proof.
  induction l as [| z l IH]; simpl; intros Hnd Hx Hy Heq; [contradiction |].
  inversion Hnd as [| b m Hnotin Hnd' [Hb Hm]]; subst b m.
  destruct Hx as [-> | Hx], Hy as [-> | Hy].
  - reflexivity.
  - exfalso. apply Hnotin. rewrite Heq. apply in_map. exact Hy.
  - exfalso. apply Hnotin. rewrite <- Heq. apply in_map. exact Hx.
  - apply IH; assumption.
Qed.

Lemma seed_ids_distinct : NoDup (map Topics.id seed_rows).
Proof.
  simpl. repeat (constructor; [simpl; intuition discriminate |]).
  constructor.
Qed.

Lemma served_assignments_complete (l : list (conditions * request))
    (files : list string) :
  Forall (fun a => Assignments.completed a = 1 /\ Assignments.marks a = 0)
         (rows (assignments (db (fst (serve l (World seeded files)))))).
Proof.
  apply (serve_invariant
           (fun w =>
              Forall (fun a => Assignments.completed a = 1
                               /\ Assignments.marks a = 0)
                     (rows (assignments (db w))))
           (fun _ => True)).
  - intros c r w Hw. split; [| exact I].
    destruct (handle_store c r w) as [_ [_ [-> | [i [u [t [p ->]]]]]]];
      [exact Hw |].
    apply Forall_app. split; [exact Hw |].
    constructor; [split; reflexivity | constructor].
  - constructor.
Qed.

(** X13.  Upload then progress.  Once an upload for a topic of the
    catalog was answered 200, and after any further sequence of requests,
    the uploader's progress listing has a row for that topic, and every
    row it has for that topic reads: the topic's id, module name and
    name, [completed] 1, [marks] 0.  The default row with [completed] 0
    is gone for good. *)
Theorem upload_then_progress (d : Schema.database) (files : list string)
    (l1 l2 : list (conditions * request)) (c c' : conditions)
    (userId topicId : string) (f : file) (t : Topics.row) :
  exists w0,
    start d files = Some w0
    /\ forall w2 assignmentId,
         upload c userId topicId (Some f) (fst (serve l1 w0))
         = (w2, res_json (Uploaded "Assignment uploaded successfully"
                                   assignmentId)) ->
         In t seed_rows ->
         numeric_affinity topicId = VInteger (Topics.id t) ->
         store_error c' = None ->
         exists listing,
           progress c' userId (fst (serve l2 w2))
           = (fst (serve l2 w2), res_json (ProgressRows listing))
           /\ (exists r, In r listing /\ Progress.topicId r = Topics.id t)
           /\ (forall r, In r listing ->
                         Progress.topicId r = Topics.id t ->
                         r = Progress.Row (Topics.id t) (Topics.module_name t)
                                          (Topics.topic_name t) 1 0).
Proof.
  exists (World seeded files). split; [apply start_seeded |].
  intros w2 assignmentId Hs Ht Htopic Hc'.
  set (w1 := fst (serve l1 (World seeded files))) in *.
  set (r := PostUpload userId topicId (Some f)).
  set (new := Assignments.Row assignmentId (numeric_affinity userId)
                              (numeric_affinity topicId) (path_of f) 0 1).
  assert (Hnew : rows (assignments (db w2))
                 = rows (assignments (db w1)) ++ [new]).
  { unfold upload in Hs.
    destruct (replace_into_assignments c _ _ _ (db w1)) as [[s' i] | m] eqn:Hr;
      [| discriminate].
    injection Hs as <- <-.
    apply replace_into_assignments_appends in Hr. tauto. }
  assert (Hw2 : w2 = fst (handle c r w1)).
  { unfold r, handle. rewrite Hs. reflexivity. }
  assert (Hrun : fst (serve l2 w2)
                 = fst (serve (l1 ++ (c, r) :: l2) (World seeded files))).
  { rewrite serve_app, serve_cons. fold w1. rewrite <- Hw2. reflexivity. }
  pose proof (served_assignments_complete (l1 ++ (c, r) :: l2) files)
    as Hcomplete.
  destruct (serve_store (l1 ++ (c, r) :: l2) (World seeded files))
    as [Htopics _].
  rewrite <- Hrun in Hcomplete, Htopics. simpl in Htopics.
  destruct (serve_store l2 w2) as [_ [_ [more Hmore]]].
  set (w3 := fst (serve l2 w2)) in *.
  assert (Hin : In new (rows (assignments (db w3)))).
  { rewrite Hmore, Hnew. apply in_or_app. left.
    apply in_or_app. right. left. reflexivity. }
  assert (Hjoins : joins (numeric_affinity userId) t new = true).
  { unfold joins, new. cbn [Assignments.topic_id Assignments.user_id].
    rewrite Htopic, !value_eqb_refl. reflexivity. }
  exists (left_join (numeric_affinity userId) (db w3)).
  split; [unfold progress, select_progress; rewrite Hc'; reflexivity |].
  split.
  - apply left_join_covers. rewrite Htopics. exact Ht.
  - intros row Hrow Hid. apply in_left_join in Hrow.
    destruct Hrow as [t' [Ht' Hcase]]. rewrite Htopics in Ht'.
    assert (Heq : t' = t).
    { apply (nodup_map_inj Topics.id seed_rows);
        [exact seed_ids_distinct | exact Ht' | exact Ht |].
      destruct Hcase as [[-> _] | [a [_ [_ ->]]]]; exact Hid. }
    subst t'.
    destruct Hcase as [[_ Hnone] | [a [Ha [_ ->]]]].
    + rewrite (Hnone new Hin) in Hjoins. discriminate.
    + rewrite Forall_forall in Hcomplete.
      destruct (Hcomplete a Ha) as [Hdone Hmarks].
      unfold progress_row. simpl. rewrite Hdone, Hmarks. reflexivity.
Qed.

Lemma value_eqb_sym (a b : value) : value_eqb a b = value_eqb b a.
Proof.
  destruct a as [x | x], b as [y | y]; simpl; try reflexivity.
  - apply Z.eqb_sym.
  - apply String.eqb_sym.
Qed.

(** The assignments that join a topic for a user are the rows of the
    pair. *)
Lemma joined_rows_of_pair (user : value) (t : Topics.row) (s : store) :
  filter (joins user t) (rows (assignments s))
  = rows_of_pair user (VInteger (Topics.id t)) s.
Proof.
  unfold rows_of_pair. apply filter_ext. intros a. unfold joins.
  rewrite andb_comm. f_equal. apply value_eqb_sym.
Qed.

(** X17.  For a user that no assignment row carries, known or not, the
    progress listing is the catalog row for row, in catalog order, each
    topic once with [completed] 0 and [marks] 0. *)
Theorem progress_without_submission (c : conditions) (userId : string)
    (w : world) :
  store_error c = None ->
  (forall a, In a (rows (assignments (db w))) ->
             Assignments.user_id a <> numeric_affinity userId) ->
  progress c userId w
  = (w, res_json
          (ProgressRows
             (map (fun t => Progress.Row (Topics.id t) (Topics.module_name t)
                                         (Topics.topic_name t) 0 0)
                  (topics (db w))))).
Proof.
  intros Hc Hnone. unfold progress, select_progress. rewrite Hc.
  rewrite left_join_without_submission; [reflexivity |].
  intros a Ha.
  destruct (value_eqb (Assignments.user_id a) (numeric_affinity userId))
    eqn:Heq; [| reflexivity].
  apply value_eqb_eq in Heq. exfalso. exact (Hnone a Ha Heq).
Qed.

(** X18.  While a user has at most one assignment row for each topic of
    the catalog, which is what the upload was meant to keep, the user's
    progress listing has every topic exactly once, in catalog order. *)
Theorem progress_once_per_topic (c : conditions) (userId : string)
    (w : world) :
  store_error c = None ->
  (forall t, In t (topics (db w)) ->
             (List.length (rows_of_pair (numeric_affinity userId)
                                        (VInteger (Topics.id t)) (db w))
              <= 1)%nat) ->
  exists listing,
    progress c userId w = (w, res_json (ProgressRows listing))
    /\ map Progress.topicId listing = map Topics.id (topics (db w)).
Proof.
  intros Hc Hone. unfold progress, select_progress. rewrite Hc.
  eexists. split; [reflexivity |].
  apply left_join_once. intros t Ht.
  rewrite joined_rows_of_pair. apply Hone. exact Ht.
Qed.

End Conduct.

(** ** The names multer gives the files *)

Lemma string_of_uint_no_dash (d : Decimal.uint) :
  no_dash (NilEmpty.string_of_uint d) = true.
Proof.
  induction d; simpl; auto.
Qed.

Lemma string_of_Z_no_dash (z : Z) : 0 <= z -> no_dash (string_of_Z z) = true.
Proof.
  intros Hz. unfold string_of_Z.
  destruct z as [| p | p]; [reflexivity | | lia].
  simpl. unfold NilZero.string_of_uint.
  destruct (Pos.to_uint p) eqn:Hp;
    try (rewrite <- Hp; apply string_of_uint_no_dash).
  reflexivity.
Qed.

Lemma string_of_Z_inj (z1 z2 : Z) : string_of_Z z1 = string_of_Z z2 -> z1 = z2.
Proof.
  assert (Hnil : forall z, Z.to_int z <> Decimal.Pos Decimal.Nil
                           /\ Z.to_int z <> Decimal.Neg Decimal.Nil).
  { intros [| p | p]; simpl; split; try discriminate;
      intros [= Hp]; exact (Unsigned.to_uint_nonnil p Hp). }
  unfold string_of_Z. intros Heq.
  apply DecimalZ.to_int_inj.
  assert (Hsome : Some (Z.to_int z1) = Some (Z.to_int z2)).
  { rewrite <- (NilZero.isi (Z.to_int z1)) by apply Hnil.
    rewrite <- (NilZero.isi (Z.to_int z2)) by apply Hnil.
    rewrite Heq. reflexivity. }
  injection Hsome as Hsome. exact Hsome.
Qed.

(** The first dash of a name separates the timestamp from the rest. *)
Lemma split_at_dash (s1 s2 r1 r2 : string) :
  no_dash s1 = true -> no_dash s2 = true ->
  String.append s1 (String "-" r1) = String.append s2 (String "-" r2) ->
  s1 = s2 /\ r1 = r2.
Proof.
  revert s2. induction s1 as [| a s1 IH]; intros [| b s2]; simpl;
    intros H1 H2 Heq.
  - injection Heq as ->. auto.
  - injection Heq as <- _. discriminate.
  - injection Heq as -> _. discriminate.
  - injection Heq as <- Heq.
    apply andb_true_iff in H1, H2.
    destruct (IH s2 (proj2 H1) (proj2 H2) Heq) as [-> ->]. auto.
Qed.

(** X14.  Two files get the same path under [./uploads] only if they were
    received in the same millisecond under the same original name: an
    upload made at another time, or under another name, never overwrites
    a stored file. *)
Theorem upload_paths_distinct (f1 f2 : file) :
  0 <= now f1 -> 0 <= now f2 ->
  path_of f1 = path_of f2 -> f1 = f2.
Proof.
  intros H1 H2 Heq. unfold path_of, filename in Heq.
  simpl in Heq. injection Heq as Heq.
  apply split_at_dash in Heq; try (apply string_of_Z_no_dash; assumption).
  destruct Heq as [Hnow Hname].
  apply string_of_Z_inj in Hnow.
  destruct f1 as [n1 t1], f2 as [n2 t2]. simpl in *. congruence.
Qed.

(** ** The two files that create tables *)

Lemma same_name_refl (n : string) : Ddl.same_name n n = true.
Proof.
  unfold Ddl.same_name. apply String.eqb_refl.
Qed.

Lemma same_name_eq (m n : string) :
  Ddl.same_name m n = true <-> Ddl.fold_case m = Ddl.fold_case n.
Proof.
  unfold Ddl.same_name. apply String.eqb_eq.
Qed.

(** Names that differ by case only are one name to every comparison. *)
Lemma same_name_congr (k m n : string) :
  Ddl.same_name m n = true -> Ddl.same_name k m = Ddl.same_name k n.
Proof.
  intros Hmn. apply same_name_eq in Hmn.
  unfold Ddl.same_name. rewrite Hmn. reflexivity.
Qed.

Lemma find_table_same_name (m n : string) (s : Ddl.schema) :
  Ddl.same_name m n = true -> Ddl.find_table m s = Ddl.find_table n s.
Proof.
  intros Hmn. induction s as [| [k d] s IH]; simpl; [reflexivity |].
  rewrite (same_name_congr k m n Hmn), IH. reflexivity.
Qed.

Lemma find_table_app (n : string) (s s' : Ddl.schema) :
  Ddl.find_table n (s ++ s')
  = match Ddl.find_table n s with
    | Some d => Some d
    | None => Ddl.find_table n s'
    end.
Proof.
  induction s as [| [m d] s IH]; simpl; [reflexivity |].
  destruct (Ddl.same_name m n); [reflexivity | exact IH].
Qed.

(** DROP TABLE removes the table whatever the case it was created in. *)
Lemma find_table_drop_same (m n : string) (s : Ddl.schema) :
  Ddl.same_name m n = true ->
  Ddl.find_table n (Ddl.drop_table m s) = None.
Proof.
  intros Hmn. induction s as [| [k d] s IH]; simpl; [reflexivity |].
  destruct (Ddl.same_name k m) eqn:Hkm; simpl; [exact IH |].
  rewrite <- (same_name_congr k m n Hmn), Hkm. exact IH.
Qed.

Lemma find_table_drop_other (m n : string) (s : Ddl.schema) :
  Ddl.same_name m n = false ->
  Ddl.find_table n (Ddl.drop_table m s) = Ddl.find_table n s.
Proof.
  intros Hmn. induction s as [| [k d] s IH]; simpl; [reflexivity |].
  destruct (Ddl.same_name k m) eqn:Hkm; simpl.
  - rewrite IH. apply same_name_eq in Hkm.
    assert (Hkn : Ddl.same_name k n = false).
    { unfold Ddl.same_name in *. rewrite Hkm. exact Hmn. }
    rewrite Hkn. reflexivity.
  - rewrite IH. reflexivity.
Qed.

(** CREATE TABLE IF NOT EXISTS never touches a table that is there. *)
Lemma find_table_create (n m : string) (d : Ddl.table_definition)
    (s : Ddl.schema) :
  Ddl.find_table n (Ddl.run_statement s (Ddl.CreateTableIfNotExists m d))
  = match Ddl.find_table n s with
    | Some x => Some x
    | None => if Ddl.same_name m n then Some d else None
    end.
Proof.
  cbn [Ddl.run_statement]. destruct (Ddl.find_table m s) as [x |] eqn:Hm.
  - destruct (Ddl.find_table n s) as [y |] eqn:Hn; [reflexivity |].
    destruct (Ddl.same_name m n) eqn:Hmn; [| reflexivity].
    rewrite (find_table_same_name m n s Hmn) in Hm. congruence.
  - rewrite find_table_app. cbn [Ddl.find_table]. reflexivity.
Qed.

(** X15.  Running [database.js] on any database file changes no table
    that is there: it only creates those of [users], [modules], [topics]
    and [assignments] that are missing under any spelling of their
    names, each with its own columns, and gives no table to any other
    name.  Run twice, it does nothing the second time. *)
Theorem database_js_keeps_tables (s : Ddl.schema) (n : string) :
  (forall d, Ddl.find_table n s = Some d ->
             Ddl.find_table n (Ddl.run s Ddl.database_js) = Some d)
  /\ (Ddl.find_table n s = None ->
      Ddl.find_table n (Ddl.run s Ddl.database_js)
      = Ddl.find_table n Samples.legacy)
  /\ (Ddl.named n ["users"; "modules"; "topics"; "assignments"] = true <->
      Ddl.find_table n Samples.legacy <> None)
  /\ Ddl.run (Ddl.run s Ddl.database_js) Ddl.database_js
     = Ddl.run s Ddl.database_js.
Proof.
  assert (Hfind : forall n s', Ddl.find_table n (Ddl.run s' Ddl.database_js)
                  = match Ddl.find_table n s' with
                    | Some x => Some x
                    | None =>
                        if Ddl.same_name "users" n
                        then Some Ddl.database_users
                        else if Ddl.same_name "modules" n
                        then Some Ddl.database_modules
                        else if Ddl.same_name "topics" n
                        then Some Ddl.database_topics
                        else if Ddl.same_name "assignments" n
                        then Some Ddl.database_assignments
                        else None
                    end).
  { clear n. intros n s'. unfold Ddl.run, Ddl.database_js. cbn [fold_left].
    rewrite !find_table_create.
    destruct (Ddl.find_table n s'); [reflexivity |].
    destruct (Ddl.same_name "users" n), (Ddl.same_name "modules" n),
      (Ddl.same_name "topics" n), (Ddl.same_name "assignments" n);
      reflexivity. }
  assert (Hlegacy : Ddl.find_table n Samples.legacy
                    = if Ddl.same_name "users" n
                      then Some Ddl.database_users
                      else if Ddl.same_name "modules" n
                      then Some Ddl.database_modules
                      else if Ddl.same_name "topics" n
                      then Some Ddl.database_topics
                      else if Ddl.same_name "assignments" n
                      then Some Ddl.database_assignments
                      else None).
  { unfold Samples.legacy. rewrite Hfind. reflexivity. }
  split; [intros d Hd; rewrite Hfind, Hd; reflexivity |].
  split; [intros Hn; rewrite Hfind, Hn, Hlegacy; reflexivity |].
  split.
  - rewrite Hlegacy. unfold Ddl.named. cbn [existsb].
    destruct (Ddl.same_name "users" n), (Ddl.same_name "modules" n),
      (Ddl.same_name "topics" n), (Ddl.same_name "assignments" n);
      cbn [orb]; split; try discriminate; try reflexivity;
      intros Hno; contradiction Hno; reflexivity.
  - assert (Hnoop : forall s' m d, Ddl.find_table m s' <> None ->
              Ddl.run_statement s' (Ddl.CreateTableIfNotExists m d) = s').
    { intros s' m d Hm. cbn [Ddl.run_statement].
      destruct (Ddl.find_table m s'); [reflexivity | contradiction]. }
    assert (Hstays : forall s' m k d,
              Ddl.find_table m s' <> None ->
              Ddl.find_table m
                (Ddl.run_statement s' (Ddl.CreateTableIfNotExists k d))
              <> None).
    { intros s' m k d Hm. rewrite find_table_create.
      destruct (Ddl.find_table m s'); [discriminate | contradiction]. }
    remember (Ddl.run s Ddl.database_js) as once eqn:Honce.
    assert (Hthere : forall m,
              In m ["users"; "modules"; "topics"; "assignments"] ->
              Ddl.find_table m once <> None).
    { intros m Hm. rewrite Honce, Hfind.
      destruct (Ddl.find_table m s); [discriminate |].
      destruct Hm as [<- | [<- | [<- | [<- | []]]]]; vm_compute; discriminate. }
    unfold Ddl.run, Ddl.database_js. cbn [fold_left].
    rewrite !Hnoop; try reflexivity;
      repeat apply Hstays; apply Hthere; simpl; auto.
Qed.

(** X16.  Whatever the database file holds when the server starts, what
    [database.js] created included, the drops and creates of [index.js]
    leave [users], [topics] and [assignments] with the columns of
    [index.js], which are the columns the statements of the handlers
    name, and leave alone every table whose name is none of the three
    under any spelling.  A run of [database.js] after the start changes
    none of the three.  The tables as [database.js] alone creates them
    lack columns the handlers name. *)
Theorem server_schema_is_its_own (s : Ddl.schema) :
  let started := Ddl.run s Ddl.index_js in
  let both := Ddl.run started Ddl.database_js in
  (forall n, Ddl.same_name "users" n = true ->
             Ddl.find_table n started = Some Ddl.index_users)
  /\ (forall n, Ddl.same_name "topics" n = true ->
                Ddl.find_table n started = Some Ddl.index_topics)
  /\ (forall n, Ddl.same_name "assignments" n = true ->
                Ddl.find_table n started = Some Ddl.index_assignments)
  /\ (forall n, Ddl.named n ["users"; "topics"; "assignments"] = false ->
                Ddl.find_table n started = Ddl.find_table n s)
  /\ Ddl.serves_handlers started = true
  /\ (Ddl.find_table "users" both = Some Ddl.index_users
      /\ Ddl.find_table "topics" both = Some Ddl.index_topics
      /\ Ddl.find_table "assignments" both = Some Ddl.index_assignments)
  /\ Ddl.serves_handlers both = true
  /\ Ddl.serves_handlers Samples.legacy = false.
Proof.
  cbv zeta.
  assert (Hfind : forall n,
            Ddl.find_table n (Ddl.run s Ddl.index_js)
            = if Ddl.same_name "users" n then Some Ddl.index_users
              else if Ddl.same_name "topics" n then Some Ddl.index_topics
              else if Ddl.same_name "assignments" n
                   then Some Ddl.index_assignments
              else Ddl.find_table n s).
  { intros n. unfold Ddl.run, Ddl.index_js. cbn [fold_left].
    rewrite !find_table_create. cbn [Ddl.run_statement].
    destruct (Ddl.same_name "users" n) eqn:Hu.
    - rewrite (find_table_drop_same "users" n _ Hu). reflexivity.
    - rewrite (find_table_drop_other "users" n _ Hu).
      destruct (Ddl.same_name "topics" n) eqn:Ht.
      + rewrite (find_table_drop_same "topics" n _ Ht). reflexivity.
      + rewrite (find_table_drop_other "topics" n _ Ht).
        destruct (Ddl.same_name "assignments" n) eqn:Ha.
        * rewrite (find_table_drop_same "assignments" n _ Ha). reflexivity.
        * rewrite (find_table_drop_other "assignments" n _ Ha).
          destruct (Ddl.find_table n s); reflexivity. }
  assert (Hdistinct : Ddl.same_name "users" "topics" = false
                      /\ Ddl.same_name "users" "assignments" = false
                      /\ Ddl.same_name "topics" "assignments" = false)
    by (repeat split; reflexivity).
  destruct Hdistinct as [Hut [Hua Hta]].
  assert (Husers : forall n, Ddl.same_name "users" n = true ->
            Ddl.find_table n (Ddl.run s Ddl.index_js) = Some Ddl.index_users).
  { intros n Hn. rewrite Hfind, Hn. reflexivity. }
  assert (Htopics : forall n, Ddl.same_name "topics" n = true ->
            Ddl.find_table n (Ddl.run s Ddl.index_js) = Some Ddl.index_topics).
  { intros n Hn. rewrite Hfind, Hn.
    rewrite (same_name_congr "users" "topics" n Hn) in Hut.
    rewrite Hut. reflexivity. }
  assert (Hassignments : forall n, Ddl.same_name "assignments" n = true ->
            Ddl.find_table n (Ddl.run s Ddl.index_js)
            = Some Ddl.index_assignments).
  { intros n Hn. rewrite Hfind, Hn.
    rewrite (same_name_congr "users" "assignments" n Hn) in Hua.
    rewrite (same_name_congr "topics" "assignments" n Hn) in Hta.
    rewrite Hua, Hta. reflexivity. }
  assert (Hkeeps : forall s' n d, Ddl.find_table n s' = Some d ->
            Ddl.find_table n (Ddl.run s' Ddl.database_js) = Some d).
  { intros s' n d Hd. unfold Ddl.run, Ddl.database_js. cbn [fold_left].
    rewrite !find_table_create, Hd. reflexivity. }
  assert (Hserves : forall s',
            Ddl.find_table "users" s' = Some Ddl.index_users ->
            Ddl.find_table "topics" s' = Some Ddl.index_topics ->
            Ddl.find_table "assignments" s' = Some Ddl.index_assignments ->
            Ddl.serves_handlers s' = true).
  { intros s' Hu Ht Ha.
    unfold Ddl.serves_handlers, Ddl.handler_columns, Ddl.has_columns.
    cbn [forallb fst snd]. rewrite Hu, Ht, Ha. reflexivity. }
  pose proof (Husers "users" (same_name_refl _)) as Hu.
  pose proof (Htopics "topics" (same_name_refl _)) as Ht.
  pose proof (Hassignments "assignments" (same_name_refl _)) as Ha.
  split; [exact Husers |]. split; [exact Htopics |].
  split; [exact Hassignments |]. split.
  - intros n Hn. rewrite Hfind.
    unfold Ddl.named in Hn. cbn [existsb] in Hn.
    destruct (Ddl.same_name "users" n); [discriminate |].
    destruct (Ddl.same_name "topics" n); [discriminate |].
    destruct (Ddl.same_name "assignments" n); [discriminate |].
    reflexivity.
  - split; [apply Hserves; assumption |].
    split; [repeat split; apply Hkeeps; assumption |].
    split; [apply Hserves; apply Hkeeps; assumption | reflexivity].
Qed.

(** * The further properties at concrete requests *)

(** A signup refused for want of disk space leaves the store as it was. *)
Lemma unsuccessful_requests_leave_store_witness :
  db (fst (@handle Reference.libraries Reference.disk_full
                   Reference.alice_signs_up Reference.fresh_world))
  = db Reference.fresh_world.
Proof.
  apply (@unsuccessful_requests_leave_store Reference.libraries).
  intros b. vm_compute. discriminate.
Defined.

Lemma route_statuses_witness :
  In 409 (possible_statuses Reference.alice_signs_up).
Proof.
  exact (proj1 (@route_statuses Reference.libraries Reference.disk_full
                  Reference.alice_signs_up Reference.fresh_world)
               (Response 409 (Message "Email or username already in use."))
               eq_refl).
Defined.

(** Alice logs in after her signup and an upload. *)
Lemma signup_then_login_witness :
  @login Reference.libraries fair (Some "a@x.com") (Some "pw123")
         Samples.after_busy
  = (Samples.after_busy, res_json (LoggedIn "Login successful" 1 "alice")).
Proof.
  destruct (@signup_then_login Reference.libraries
              (Schema.Database None None None) [] []
              [(fair, Samples.alice_uploads)] fair fair
              "alice" "a@x.com" "pw123" "$2b$10$pw123")
    as [w0 [Hstart Hlogin]].
  injection Hstart as <-.
  exact (Hlogin Reference.with_alice 1 eq_refl eq_refl eq_refl eq_refl).
Defined.

(** Bob, signing up second, gets id 2. *)
Lemma rowids_count_up_witness :
  2 = Z.of_nat (List.length (rows (users (db Samples.after_busy)))) + 1.
Proof.
  destruct (@rowids_count_up Reference.libraries
              (Schema.Database None None None) [] Samples.busy)
    as [w0 [Hstart [_ [_ [Hsignup _]]]]].
  injection Hstart as <-.
  exact (Hsignup fair (Some "bob") (Some "b@x.com") (Some "pw456") _ _ 2
                 eq_refl).
Defined.

Lemma accepted_upload_witness :
  exists w' assignmentId,
    @upload Reference.libraries fair "7" "99" (Some (File "a.pdf" 1000))
            Reference.fresh_world
    = (w', res_json (Uploaded "Assignment uploaded successfully"
                              assignmentId))
    /\ In "uploads/1000-a.pdf" (uploads w').
Proof.
  destruct (@accepted_upload Reference.libraries fair "7" "99"
              (File "a.pdf" 1000) Reference.fresh_world eq_refl)
    as [w' [i [Hup [_ [_ [_ [_ [Hfile _]]]]]]]].
  exists w', i. split; [exact Hup | exact Hfile].
Defined.

(** The same file sent again while the disk is full: the stored file of
    the first upload is unlinked. *)
Lemma only_failed_upload_removes_file_witness :
  exists u t f m,
    Reference.first_upload = PostUpload u t (Some f)
    /\ "uploads/1000-a.pdf" = path_of f
    /\ store_error Reference.disk_full = Some m
    /\ unlink_error Reference.disk_full = false.
Proof.
  apply (@only_failed_upload_removes_file Reference.libraries
           Reference.disk_full Reference.first_upload
           Samples.after_first_upload "uploads/1000-a.pdf").
  - left. reflexivity.
  - vm_compute. intros [].
Defined.

Lemma upload_leaves_other_users_progress_witness :
  snd (@progress Reference.libraries fair "2"
         (fst (@upload Reference.libraries fair "1" "3"
                       (Some (File "os.pdf" 5000)) Reference.with_alice)))
  = snd (@progress Reference.libraries fair "2" Reference.with_alice).
Proof.
  apply (@upload_leaves_other_users_progress Reference.libraries).
  intros Heq. vm_compute in Heq. discriminate.
Defined.

Lemma orphan_upload_invisible_witness :
  snd (@progress Reference.libraries fair "1"
         (fst (@upload Reference.libraries fair "1" "99"
                       (Some (File "os.pdf" 5000)) Reference.with_alice)))
  = snd (@progress Reference.libraries fair "1" Reference.with_alice).
Proof.
  apply (@orphan_upload_invisible Reference.libraries).
  intros t Ht Heq. vm_compute in Heq. injection Heq as Heq.
  simpl in Ht.
  repeat (destruct Ht as [<- | Ht]; [discriminate |]).
  contradiction.
Defined.

(** Alice's upload for topic 3 shows in her listing. *)
Lemma upload_then_progress_witness :
  exists listing,
    @progress Reference.libraries fair "1" Samples.after_busy
    = (Samples.after_busy, res_json (ProgressRows listing))
    /\ exists r, In r listing /\ Progress.topicId r = 3.
Proof.
  destruct (@upload_then_progress Reference.libraries
              (Schema.Database None None None) []
              [(fair, Reference.alice_signs_up)] [] fair fair
              "1" "3" (File "os.pdf" 5000) Samples.paging)
    as [w0 [Hstart Hprogress]].
  injection Hstart as <-.
  destruct (Hprogress Samples.after_busy 1 eq_refl) as [listing [Hl [Hr _]]].
  - simpl. auto.
  - reflexivity.
  - reflexivity.
  - exists listing. split; [exact Hl | exact Hr].
Defined.

Lemma upload_paths_distinct_witness :
  File "a.pdf" 1000 = File "a.pdf" 1000.
Proof.
  apply upload_paths_distinct; [simpl; lia | simpl; lia | reflexivity].
Defined.

(** [database.js] run on a database that holds a table [USERS] creates
    no table [users]: the one that is there stays. *)
Lemma database_js_keeps_tables_witness :
  Ddl.find_table "users"
    (Ddl.run [("USERS", Ddl.index_users)] Ddl.database_js)
  = Some Ddl.index_users.
Proof.
  exact (proj1 (database_js_keeps_tables [("USERS", Ddl.index_users)] "users")
               Ddl.index_users eq_refl).
Defined.

(** A start of the server on what [database.js] left, with a table
    [Users] next to it: [modules] stays, [Users] is dropped and created
    again with the columns of [index.js]. *)
Lemma server_schema_is_its_own_witness :
  Ddl.find_table "modules"
    (Ddl.run (("Users", Ddl.database_users) :: Samples.legacy) Ddl.index_js)
  = Ddl.find_table "modules" (("Users", Ddl.database_users) :: Samples.legacy)
  /\ Ddl.find_table "Users"
       (Ddl.run (("Users", Ddl.database_users) :: Samples.legacy) Ddl.index_js)
     = Some Ddl.index_users.
Proof.
  pose proof (server_schema_is_its_own
                (("Users", Ddl.database_users) :: Samples.legacy)) as Hschema.
  cbv zeta in Hschema. destruct Hschema as [Husers [_ [_ [Hother _]]]].
  split.
  - apply Hother. reflexivity.
  - apply Husers. reflexivity.
Defined.

(** User 2 uploaded nothing. *)
Lemma progress_without_submission_witness :
  @progress Reference.libraries fair "2" Samples.after_busy
  = (Samples.after_busy,
     res_json
       (ProgressRows
          (map (fun t => Progress.Row (Topics.id t) (Topics.module_name t)
                                      (Topics.topic_name t) 0 0)
               seed_rows))).
Proof.
  apply (@progress_without_submission Reference.libraries fair "2"
           Samples.after_busy eq_refl).
  intros a [<- | []]. vm_compute. discriminate.
Defined.

(** User 1 uploaded once. *)
Lemma progress_once_per_topic_witness :
  exists listing,
    @progress Reference.libraries fair "1" Samples.after_busy
    = (Samples.after_busy, res_json (ProgressRows listing))
    /\ map Progress.topicId listing = map Topics.id seed_rows.
Proof.
  apply (@progress_once_per_topic Reference.libraries fair "1"
           Samples.after_busy eq_refl).
  intros t Ht. simpl in Ht.
  repeat (destruct Ht as [<- | Ht]; [vm_compute; lia |]).
  contradiction.
Defined.
